(** * A launch-time cache for JIT-compiled Triton kernels

    Shallow embedding of [vllm/triton_utils/jit_cache.py]: the classes
    [CacheLock], [PreparedKernel] and [JitCache], and the [jitcache]
    decorator.  The Triton compiler and the device driver are external
    collaborators; they enter the development as a record of functions
    ([Toolchain]).  The Python code is stateful and raises exceptions, so it
    is written in a small state-and-exception monad over a [World] that holds
    the engine's [kernel_cache], the store of [CacheLock] objects and a trace
    of the observable events (compilations, binary loads, launches, log and
    print output). *)

From Stdlib Require Import ZArith String List DecimalString DecimalZ
  DecimalPos Floats.SpecFloat Lia.
From stdpp Require Import gmap strings list.

Local Open Scope string_scope.
Local Open Scope list_scope.

(** ** Python values *)

(** Opaque handles for objects owned by the toolchain or the driver. *)
Definition handle := nat.

#[warnings="-register-all"]
Inductive pyval : Type :=
| VNone
| VInt (z : Z)
| VBool (b : bool)
| VFloat (f : spec_float)
| VStr (s : string)
| VTuple (items : list pyval)
| VList (items : list pyval)
| VCallable (c : handle)
| VObject (o : handle).

(** Keyword arguments: a Python [dict] from parameter name to value. *)
Abbreviation kwargs_t := (gmap string pyval).

Inductive exn : Type :=
| RuntimeError (msg : string)
| AssertionError
| KeyError (key : string)
| AttributeError (attr : string)
| TypeError
| IndexError
| OutOfResources (required limit : Z) (name : string)
| ExternalError (code : handle).

Inductive Outcome (A : Type) : Type :=
| Ok (a : A)
| Raise (e : exn).
Arguments Ok {A} a.
Arguments Raise {A} e.

Definition is_ok {A} (r : Outcome A) : bool :=
  match r with Ok _ => true | Raise _ => false end.

(** [type(v) in [int, bool, float]] *)
Definition is_index_type (v : pyval) : bool :=
  match v with
  | VInt _ | VBool _ | VFloat _ => true
  | _ => false
  end.

(** [callable(v)] *)
Definition callable (v : pyval) : bool :=
  match v with VCallable _ => true | _ => false end.

(** [len(v)] for the sequences a launch grid can be. *)
Definition py_len (v : pyval) : Outcome nat :=
  match v with
  | VTuple l | VList l => Ok (length l)
  | _ => Raise TypeError
  end.

(** [v[i]] *)
Definition py_index (v : pyval) (i : nat) : Outcome pyval :=
  match v with
  | VTuple l | VList l =>
      match l !! i with Some x => Ok x | None => Raise IndexError end
  | _ => Raise TypeError
  end.

(** ** Insertion-ordered dictionaries

    [kernel_cache] is a Python [dict]; its keys are printed in insertion
    order, and assigning to a key that is present keeps its position. *)

Definition pydict (V : Type) := list (string * V).

Fixpoint dict_get {V} (d : pydict V) (k : string) : option V :=
  match d with
  | [] => None
  | (k', v) :: d' => if String.eqb k' k then Some v else dict_get d' k
  end.

Definition dict_mem {V} (k : string) (d : pydict V) : bool :=
  match dict_get d k with Some _ => true | None => false end.

Fixpoint dict_set {V} (d : pydict V) (k : string) (v : V) : pydict V :=
  match d with
  | [] => [(k, v)]
  | (k', v') :: d' =>
      if String.eqb k' k then (k', v) :: d' else (k', v') :: dict_set d' k v
  end.

Definition dict_keys {V} (d : pydict V) : list string := map fst d.

(** ** External collaborators *)

Record KernelMetadata := {
  shared : Z;
  metadata_obj : handle
}.

(** What [self.fn.run(..., warmup=True)] returns. *)
Record CompiledKernel := {
  src : handle;
  metadata : KernelMetadata;
  name : string;
  kernel : handle;
  packed_metadata : handle
}.

(** An element of [self.fn.params]. *)
Record KernelParam := {
  p_name : string;
  is_constexpr : bool;
  is_const : bool
}.

Record Toolchain := {
  (** [str(v)] for the values whose text this development leaves to the
      interpreter: floats, sequences, callables and other objects *)
  str_ext : pyval -> string;
  (** [self.fn.run] on the positional and keyword arguments *)
  fn_run : list pyval -> kwargs_t -> Outcome CompiledKernel;
  (** [self.fn.params] *)
  fn_params : list KernelParam;
  (** [self.fn.binder] on the same arguments, projected on [non_constexpr_vals] *)
  fn_binder : list pyval -> kwargs_t -> Outcome (list pyval);
  (** calling a callable grid with the keyword dictionary *)
  call_grid : handle -> kwargs_t -> Outcome pyval;
  get_current_device : handle;
  get_current_stream : handle -> handle;
  (** [kernel.launch_metadata] on the grid, the stream and the non-constant values *)
  kernel_launch_metadata :
    CompiledKernel -> pyval -> handle -> list pyval -> Outcome handle;
  launch_enter_hook : handle;
  launch_exit_hook : handle;
  (** [driver.active.launcher_cls(src, metadata)] *)
  launcher_cls : handle -> KernelMetadata -> Outcome handle;
  (** [driver.active.utils.get_device_properties(device)["max_shared_mem"]] *)
  max_shared_mem : handle -> Z;
  (** [driver.active.utils.load_binary(name, kernel, shared, device)] *)
  load_binary :
    string -> handle -> Z -> handle -> Outcome (handle * handle * Z * Z);
  (** the launcher object called with grid, stream, function, metadata,
      hooks and the non-constant values *)
  launch :
    handle -> pyval -> pyval -> pyval -> handle -> handle -> handle ->
    handle -> handle -> handle -> list pyval -> Outcome pyval
}.

(** ** Objects of the module *)

Record CacheLock := {
  is_locked : bool;
  id : string
}.

Record PreparedKernel := {
  grid_obj : pyval;
  grid_is_callable : bool;
  grid_size : nat;
  pk_cache_launch_grid : bool;
  concrete_grid : option (pyval * pyval * pyval);
  pk_kernel : CompiledKernel;
  launch_metadata : handle;
  pk_launch_enter_hook : handle;
  pk_launch_exit_hook : handle;
  non_const_arg_names : list string;
  device : handle;
  stream : handle;
  run : handle;
  dev_max_shared : Z;
  module : handle;
  function : handle;
  n_regs : Z;
  n_spills : Z;
  cache_key : string
}.

(** The attributes [PreparedKernel.__init__] has assigned when it calls
    [_init_handles], and those [_init_handles] assigns itself before its
    resource check. *)
Definition PreparedKernel_attrs_at_check : list string :=
  ["grid_obj"; "grid_is_callable"; "grid_size"; "cache_launch_grid";
   "concrete_grid"; "kernel"; "launch_metadata"; "launch_enter_hook";
   "launch_exit_hook"; "non_const_arg_names"; "device"; "stream";
   "run"; "dev_max_shared"].

(** The methods of the class are attributes of its instances too. *)
Definition PreparedKernel_methods : list string :=
  ["__init__"; "_init_handles"; "__call__"; "get_key"].

(** The immutable fields of a [JitCache]; its one mutable field,
    [self.kernel_cache], is in the [World]. *)
Record JitCache := {
  arg_names : list string;
  check_keys : list string;
  cache_lock : option nat;
  cache_launch_grid : bool;
  dynamic_mode : bool
}.

(** ** Observable events *)

Inductive LogMsg : Type :=
| LogLocked (lock_id : string)
| LogUnlocked (lock_id : string)
| LogCompileTimes
| LogOverrideWarning
| LogMissCompiling (key : string) (cached : list string).

Inductive PrintMsg : Type :=
| PrintKeyNotInCache (key : string) (cached : list string)
| PrintException (e : exn).

Inductive Event : Type :=
| ECompile (args : list pyval) (kwargs : kwargs_t)
| EGridCall (c : handle) (kwargs : kwargs_t)
| ELoadBinary (kname : string) (dev : handle)
| ELaunch (launcher : handle) (g0 g1 g2 : pyval) (strm fn packed lm : handle)
          (enter exit : handle) (vals : list pyval)
| ELog (m : LogMsg)
| EPrint (m : PrintMsg).

(** The trace is kept newest first. *)
Record World := {
  kernel_cache : pydict PreparedKernel;
  lock_store : nat -> CacheLock;
  next_lock : nat;
  trace : list Event
}.

Definition is_compile (e : Event) : bool :=
  match e with ECompile _ _ => true | _ => false end.

Definition is_launch (e : Event) : bool :=
  match e with ELaunch _ _ _ _ _ _ _ _ _ _ _ => true | _ => false end.

Definition is_load (e : Event) : bool :=
  match e with ELoadBinary _ _ => true | _ => false end.

Definition is_grid_call (e : Event) : bool :=
  match e with EGridCall _ _ => true | _ => false end.

Definition count_events (p : Event -> bool) (t : list Event) : nat :=
  length (List.filter p t).

Definition compile_count (w : World) : nat := count_events is_compile (trace w).
Definition launch_count (w : World) : nat := count_events is_launch (trace w).

(** ** The state-and-exception monad *)

Definition M (A : Type) : Type := World -> Outcome A * World.

Definition ret {A} (a : A) : M A := fun w => (Ok a, w).

Definition raise {A} (e : exn) : M A := fun w => (Raise e, w).

Definition bind {A B} (m : M A) (k : A -> M B) : M B :=
  fun w =>
    match m w with
    | (Ok a, w') => k a w'
    | (Raise e, w') => (Raise e, w')
    end.

Notation "'let!' x ':=' m 'in' k" := (bind m (fun x => k))
  (at level 10, x pattern, m at level 100, k at level 200).
Notation "'do!' m 'in' k" := (bind m (fun _ => k))
  (at level 10, m at level 100, k at level 200).

Definition lift {A} (r : Outcome A) : M A := fun w => (r, w).

Definition emit (e : Event) : M unit :=
  fun w =>
    (Ok tt, {| kernel_cache := kernel_cache w; lock_store := lock_store w;
               next_lock := next_lock w; trace := e :: trace w |}).

Definition get_cache : M (pydict PreparedKernel) :=
  fun w => (Ok (kernel_cache w), w).

Definition put_cache (d : pydict PreparedKernel) : M unit :=
  fun w =>
    (Ok tt, {| kernel_cache := d; lock_store := lock_store w;
               next_lock := next_lock w; trace := trace w |}).

(** [assert b] *)
Definition py_assert (b : bool) : M unit :=
  if b then ret tt else raise AssertionError.

(** [try: body / except KeyError as e: handler] *)
Definition try_except_KeyError {A} (body : M A) (handler : string -> M A)
  : M A :=
  fun w =>
    match body w with
    | (Raise (KeyError k), w') => handler k w'
    | r => r
    end.

(** [kwargs[k]] *)
Definition getitem (kwargs : kwargs_t) (k : string) : Outcome pyval :=
  match kwargs !! k with
  | Some v => Ok v
  | None => Raise (KeyError k)
  end.

Fixpoint mapM {A B} (f : A -> M B) (l : list A) : M (list B) :=
  match l with
  | [] => ret []
  | a :: l' => let! b := f a in let! bs := mapM f l' in ret (b :: bs)
  end.

(** ** Key derivation *)

Section Engine.

Variable T : Toolchain.

(** [str(v)] *)
Definition py_str (v : pyval) : string :=
  match v with
  | VInt z => NilZero.string_of_int (Z.to_int z)
  | VBool true => "True"
  | VBool false => "False"
  | VStr s => s
  | VNone => "None"
  | _ => str_ext T v
  end.

(** The loop of [calc_cache_index], entered with the key built so far:
    [for c_arg_name in check_keys: cache_key += str(kwargs[c_arg_name])]. *)
Fixpoint calc_cache_index_loop (cache_key : string) (keys : list string)
  (kwargs : kwargs_t) : Outcome string :=
  match keys with
  | [] => Ok cache_key
  | c_arg_name :: keys' =>
      match getitem kwargs c_arg_name with
      | Ok v => calc_cache_index_loop (cache_key +:+ py_str v) keys' kwargs
      | Raise e => Raise e
      end
  end.

Definition calc_cache_index (keys : list string) (kwargs : kwargs_t)
  : Outcome string :=
  calc_cache_index_loop "" keys kwargs.

(** [self.cache_index_func], as [JitCache.__init__] chooses it. *)
Definition cache_index_func (self : JitCache) (kwargs : kwargs_t)
  : Outcome string :=
  if (length (check_keys self) =? 0)%nat
  then Ok "_default_"
  else calc_cache_index (check_keys self) kwargs.

(** ** CacheLock *)

Definition CacheLock_init (lock_id : string) : CacheLock :=
  {| is_locked := false; id := lock_id |}.

Definition store_set (st : nat -> CacheLock) (r : nat) (l : CacheLock)
  : nat -> CacheLock :=
  fun r' => if (r' =? r)%nat then l else st r'.

(** [CacheLock(id)]: allocates the object and returns a reference to it. *)
Definition CacheLock_new (lock_id : string) : M nat :=
  fun w =>
    (Ok (next_lock w),
     {| kernel_cache := kernel_cache w;
        lock_store := store_set (lock_store w) (next_lock w)
                        (CacheLock_init lock_id);
        next_lock := S (next_lock w);
        trace := trace w |}).

Definition set_is_locked (r : nat) (b : bool) : M unit :=
  fun w =>
    (Ok tt,
     {| kernel_cache := kernel_cache w;
        lock_store := store_set (lock_store w) r
                        {| is_locked := b; id := id (lock_store w r) |};
        next_lock := next_lock w;
        trace := trace w |}).

Definition get_lock (r : nat) : M CacheLock :=
  fun w => (Ok (lock_store w r), w).

Definition CacheLock_lock (r : nat) : M unit :=
  do! set_is_locked r true in
  let! l := get_lock r in
  emit (ELog (LogLocked (id l))).

Definition CacheLock_unlock (r : nat) : M unit :=
  do! set_is_locked r false in
  let! l := get_lock r in
  emit (ELog (LogUnlocked (id l))).

(** ** PreparedKernel *)

(** Reading attribute [attr] of the [PreparedKernel] under construction. *)
Definition PreparedKernel_getattr_at_check (attr : string) : Outcome unit :=
  if existsb (String.eqb attr)
       (PreparedKernel_attrs_at_check ++ PreparedKernel_methods)
  then Ok tt
  else Raise (AttributeError attr).

(** [_init_handles]: returns what it assigns to [self.run],
    [self.dev_max_shared], [self.module], [self.function], [self.n_regs]
    and [self.n_spills]. *)
Definition PreparedKernel_init_handles (k : CompiledKernel) (dev : handle)
  : M (handle * Z * (handle * handle * Z * Z)) :=
  let! run_ := lift (launcher_cls T (src k) (metadata k)) in
  let dev_max := max_shared_mem T dev in
  if (shared (metadata k) >? dev_max)%Z then
    (* the arguments of [OutOfResources] are evaluated first, and the first
       reads [self.metadata] *)
    do! lift (PreparedKernel_getattr_at_check "metadata") in
    raise (OutOfResources (shared (metadata k)) dev_max "shared memory")
  else
    do! emit (ELoadBinary (name k) dev) in
    let! bin := lift (load_binary T (name k) (kernel k)
                        (shared (metadata k)) dev) in
    ret (run_, dev_max, bin).

(** [grid[i] if size > i else 1] *)
Definition grid_dim (grid : pyval) (size i : nat) : Outcome pyval :=
  if (i <? size)%nat then py_index grid i else Ok (VInt 1).

(** [PreparedKernel.__init__] *)
Definition PreparedKernel_init (grid_obj_ grid_example : pyval)
  (cache_launch_grid_ : bool) (k : CompiledKernel) (lm enter exit : handle)
  (non_const : list string) (key : string) (dev strm : handle)
  : M PreparedKernel :=
  let! size := lift (py_len grid_example) in
  let! cg :=
    (if cache_launch_grid_ then
       let! grid_0 := lift (py_index grid_example 0) in
       let! grid_1 := lift (grid_dim grid_example size 1) in
       let! grid_2 := lift (grid_dim grid_example size 2) in
       ret (Some (grid_0, grid_1, grid_2))
     else ret None) in
  let! h := PreparedKernel_init_handles k dev in
  let '(run_, dev_max, (module_, function_, n_regs_, n_spills_)) := h in
  ret {| grid_obj := grid_obj_;
         grid_is_callable := callable grid_obj_;
         grid_size := size;
         pk_cache_launch_grid := cache_launch_grid_;
         concrete_grid := cg;
         pk_kernel := k;
         launch_metadata := lm;
         pk_launch_enter_hook := enter;
         pk_launch_exit_hook := exit;
         non_const_arg_names := non_const;
         device := dev;
         stream := strm;
         run := run_;
         dev_max_shared := dev_max;
         module := module_;
         function := function_;
         n_regs := n_regs_;
         n_spills := n_spills_;
         cache_key := key |}.

(** Calling a grid object with the keyword dictionary. *)
Definition py_call (f : pyval) (kwargs : kwargs_t) : M pyval :=
  match f with
  | VCallable c =>
      do! emit (EGridCall c kwargs) in lift (call_grid T c kwargs)
  | _ => raise TypeError
  end.

(** The per-call grid resolution of [PreparedKernel.__call__]. *)
Definition resolve_grid_per_call (self : PreparedKernel) (kwargs : kwargs_t)
  : M (pyval * pyval * pyval) :=
  let! grid :=
    (if grid_is_callable self then
       let! g := lift (getitem kwargs "grid") in py_call g kwargs
     else lift (getitem kwargs "grid")) in
  let! size := lift (py_len grid) in
  let! grid_0 := lift (py_index grid 0) in
  let! grid_1 := lift (grid_dim grid size 1) in
  let! grid_2 := lift (grid_dim grid size 2) in
  ret (grid_0, grid_1, grid_2).

(** [PreparedKernel.__call__] *)
Definition PreparedKernel_call (self : PreparedKernel) (args : list pyval)
  (kwargs : kwargs_t) : M pyval :=
  do! py_assert (length args =? 0)%nat in
  let! vals := mapM (fun arg_n => lift (getitem kwargs arg_n))
                 (non_const_arg_names self) in
  let! g :=
    (if pk_cache_launch_grid self then
       match concrete_grid self with
       | Some g => ret g
       | None => raise TypeError
       end
     else resolve_grid_per_call self kwargs) in
  let '(grid_0, grid_1, grid_2) := g in
  do! emit (ELaunch (run self) grid_0 grid_1 grid_2 (stream self)
              (function self) (packed_metadata (pk_kernel self))
              (launch_metadata self) (pk_launch_enter_hook self)
              (pk_launch_exit_hook self) vals) in
  lift (launch T (run self) grid_0 grid_1 grid_2 (stream self)
          (function self) (packed_metadata (pk_kernel self))
          (launch_metadata self) (pk_launch_enter_hook self)
          (pk_launch_exit_hook self) vals).

Definition get_key (self : PreparedKernel) : string := cache_key self.

(** ** JitCache *)

(** [JitCache.__init__]: the engine starts with an empty [kernel_cache];
    it is in dynamic mode exactly when no lock is given. *)
Definition JitCache_init (arg_names_ check_keys_ : list string)
  (cache_lock_ : option nat) (cache_launch_grid_ : bool) : M JitCache :=
  do! put_cache [] in
  ret {| arg_names := arg_names_;
         check_keys := check_keys_;
         cache_lock := cache_lock_;
         cache_launch_grid := cache_launch_grid_;
         dynamic_mode := match cache_lock_ with
                         | None => true
                         | Some _ => false
                         end |}.

(** The two lists the loop over [self.fn.params] builds. *)
Definition const_arg_names_of (ps : list KernelParam) : list string :=
  map p_name (List.filter (fun p => is_constexpr p || is_const p) ps).

Definition non_const_arg_names_of (ps : list KernelParam) : list string :=
  map p_name (List.filter (fun p => negb (is_constexpr p || is_const p)) ps).

(** [any(x in self.check_keys for x in non_const_arg_names)] *)
Definition check_keys_clash (self : JitCache) (non_const : list string)
  : bool :=
  existsb (fun x => existsb (String.eqb x) (check_keys self)) non_const.

Definition msg_check_keys : string :=
  "[vllm.triton_utils.jit_cache] ERROR: check_keys must only contain parameters marked as tl.constexpr (non-constants will be updated in all cases).".

Definition msg_only_kwargs : string :=
  "[vllm.triton_utils.jit_cache] ERROR: The JITCache only supports kwargs, len(args) must be 0.".

(** [JitCache._get_prepared_kernel].  It receives its own copy of the
    keyword dictionary, to which it adds [warmup]. *)
Definition JitCache_get_prepared_kernel (self : JitCache)
  (args : list pyval) (kwargs0 : kwargs_t) : M PreparedKernel :=
  let kwargs := <["warmup" := VBool true]> kwargs0 in
  do! emit (ECompile args kwargs) in
  let! k := lift (fn_run T args kwargs) in
  let non_const := non_const_arg_names_of (fn_params T) in
  if check_keys_clash self non_const then
    raise (RuntimeError msg_check_keys)
  else
    let! non_constexpr_vals := lift (fn_binder T args kwargs) in
    let! g := lift (getitem kwargs "grid") in
    let! grid := (if callable g then py_call g kwargs else ret g) in
    let dev := get_current_device T in
    let strm := get_current_stream T dev in
    let! lm := lift (kernel_launch_metadata T k grid strm
                       non_constexpr_vals) in
    let! key := lift (cache_index_func self kwargs) in
    let! prepared_kernel :=
      PreparedKernel_init g grid (cache_launch_grid self) k lm
        (launch_enter_hook T) (launch_exit_hook T) non_const key dev strm in
    do! emit (ELog LogCompileTimes) in
    ret prepared_kernel.

(** [for key in self.check_keys:
       assert type(kwargs[key]) in [int, bool, float]] *)
Fixpoint check_key_types (keys : list string) (kwargs : kwargs_t) : M unit :=
  match keys with
  | [] => ret tt
  | key :: keys' =>
      let! v := lift (getitem kwargs key) in
      do! py_assert (is_index_type v) in
      check_key_types keys' kwargs
  end.

(** [len(args) != 0] raises; then
    [assert "pre_hook" not in kwargs or kwargs["pre_hook"] is None]. *)
Definition pre_hook_ok (kwargs : kwargs_t) : bool :=
  match kwargs !! "pre_hook" with
  | None => true
  | Some VNone => true
  | Some _ => false
  end.

Definition check_call_shape (args : list pyval) (kwargs : kwargs_t) : M unit :=
  do! (if negb (length args =? 0)%nat
       then raise (RuntimeError msg_only_kwargs) else ret tt) in
  py_assert (pre_hook_ok kwargs).

(** [self.kernel_cache[key]] *)
Definition cache_getitem (key : string) : M PreparedKernel :=
  let! d := get_cache in
  match dict_get d key with
  | Some pk => ret pk
  | None => raise (KeyError key)
  end.

(** [self.kernel_cache[key] = pk] *)
Definition cache_setitem (key : string) (pk : PreparedKernel) : M unit :=
  let! d := get_cache in put_cache (dict_set d key pk).

(** [self.kernel_cache[self.cache_index_func(kwargs)]] *)
Definition cache_lookup (self : JitCache) (kwargs : kwargs_t)
  : M PreparedKernel :=
  let! key := lift (cache_index_func self kwargs) in cache_getitem key.

(** [self.cache_lock.is_locked] *)
Definition lock_is_locked (self : JitCache) : M bool :=
  match cache_lock self with
  | Some r => let! l := get_lock r in ret (is_locked l)
  | None => raise (AttributeError "is_locked")
  end.

(** [JitCache._run_static] *)
Definition JitCache_run_static (self : JitCache) (args : list pyval)
  (kwargs : kwargs_t) : M pyval :=
  do! check_call_shape args kwargs in
  let! locked := lock_is_locked self in
  do! (if negb locked then
         do! check_key_types (check_keys self) kwargs in
         let! prepared_kernel :=
           JitCache_get_prepared_kernel self args kwargs in
         let! d := get_cache in
         do! (if dict_mem (get_key prepared_kernel) d
              then emit (ELog LogOverrideWarning) else ret tt) in
         cache_setitem (get_key prepared_kernel) prepared_kernel
       else ret tt) in
  let! kernel_variant :=
    try_except_KeyError (cache_lookup self kwargs)
      (fun e =>
         let! key := lift (cache_index_func self kwargs) in
         let! d := get_cache in
         do! emit (EPrint (PrintKeyNotInCache key (dict_keys d))) in
         do! emit (EPrint (PrintException (KeyError e))) in
         raise (KeyError e)) in
  PreparedKernel_call kernel_variant args kwargs.

(** [JitCache._run_dynamic] *)
Definition JitCache_run_dynamic (self : JitCache) (args : list pyval)
  (kwargs : kwargs_t) : M pyval :=
  do! check_call_shape args kwargs in
  let! kernel_variant :=
    try_except_KeyError (cache_lookup self kwargs)
      (fun e =>
         let! key := lift (cache_index_func self kwargs) in
         let! d := get_cache in
         do! emit (ELog (LogMissCompiling key (dict_keys d))) in
         do! check_key_types (check_keys self) kwargs in
         let! kernel_variant :=
           JitCache_get_prepared_kernel self args kwargs in
         do! cache_setitem (get_key kernel_variant) kernel_variant in
         ret kernel_variant) in
  PreparedKernel_call kernel_variant args kwargs.

(** [self.run], as [JitCache.__init__] binds it. *)
Definition JitCache_run (self : JitCache) (args : list pyval)
  (kwargs : kwargs_t) : M pyval :=
  if dynamic_mode self
  then JitCache_run_dynamic self args kwargs
  else JitCache_run_static self args kwargs.

(** [jitcache(check_keys, cache_lock, cache_launch_grid)(fn)], where the
    decorated function contributes its [arg_names]. *)
Definition jitcache (check_keys_ : list string) (cache_lock_ : option nat)
  (cache_launch_grid_ : bool) (fn_arg_names : list string) : M JitCache :=
  JitCache_init fn_arg_names check_keys_ cache_lock_ cache_launch_grid_.

End Engine.

(** ** Call sequences

    A client interleaves calls of the engine with [lock()] and [unlock()] on
    the shared lock.  An exception raised by a call reaches the client and
    leaves the world as the call left it. *)

Inductive Action : Type :=
| ACall (args : list pyval) (kwargs : kwargs_t)
| ALock (r : nat)
| AUnlock (r : nat).

Definition run_action (T : Toolchain) (self : JitCache) (a : Action)
  (w : World) : World :=
  match a with
  | ACall args kwargs => snd (JitCache_run T self args kwargs w)
  | ALock r => snd (CacheLock_lock r w)
  | AUnlock r => snd (CacheLock_unlock r w)
  end.

Definition run_actions (T : Toolchain) (self : JitCache) (acts : list Action)
  (w : World) : World :=
  fold_left (fun w a => run_action T self a w) acts w.

(** ** Reference definitions for the statements *)

(** The values of the selector keys, in [check_keys] order. *)
Fixpoint selector_values (keys : list string) (kwargs : kwargs_t)
  : Outcome (list pyval) :=
  match keys with
  | [] => Ok []
  | key :: keys' =>
      match getitem kwargs key with
      | Ok v =>
          match selector_values keys' kwargs with
          | Ok vs => Ok (v :: vs)
          | Raise e => Raise e
          end
      | Raise e => Raise e
      end
  end.

(** The cache key as the specification words it: the concatenation of the
    string representations of the selector values, and one fixed sentinel
    when there is no selector key. *)
Definition spec_cache_key (T : Toolchain) (keys : list string)
  (kwargs : kwargs_t) : Outcome string :=
  match keys with
  | [] => Ok "_default_"
  | _ =>
      match selector_values keys kwargs with
      | Ok vs => Ok (String.concat "" (map (py_str T) vs))
      | Raise e => Raise e
      end
  end.

(** A launch grid padded to three dimensions. *)
Definition grid3 (items : list pyval) : option (pyval * pyval * pyval) :=
  match items with
  | [] => None
  | [g0] => Some (g0, VInt 1, VInt 1)
  | [g0; g1] => Some (g0, g1, VInt 1)
  | g0 :: g1 :: g2 :: _ => Some (g0, g1, g2)
  end.

Definition seq_items (v : pyval) : option (list pyval) :=
  match v with
  | VTuple l | VList l => Some l
  | _ => None
  end.

(** Every selector key is bound to an [int], a [bool] or a [float]. *)
Definition selector_types_ok (keys : list string) (kwargs : kwargs_t) : Prop :=
  Forall (fun key => exists v, kwargs !! key = Some v /\ is_index_type v = true)
         keys.

(** The world a process starts in. *)
Definition initial_world : World :=
  {| kernel_cache := [];
     lock_store := fun _ => CacheLock_init "unkown";
     next_lock := 0;
     trace := [] |}.

(** ** Definitions for the statements and their proofs *)

Definition add_event (e : Event) (w : World) : World := snd (emit e w).

Definition set_cache (d : pydict PreparedKernel) (w : World) : World :=
  snd (put_cache d w).

(** The grid that [_get_prepared_kernel] resolves from its keyword
    dictionary: the grid object itself, or its result when it is callable. *)
Definition prepare_time_grid (T : Toolchain) (kwargs : kwargs_t)
  : Outcome pyval :=
  match getitem kwargs "grid" with
  | Ok (VCallable c) => call_grid T c kwargs
  | Ok g => Ok g
  | Raise e => Raise e
  end.

(** What [_run_static] does after its warmup block: the lookup, the report
    of a missing key, the call of the kernel found. *)
Definition static_lookup_and_call (T : Toolchain) (self : JitCache)
  (args : list pyval) (kwargs : kwargs_t) (w : World)
  : Outcome pyval * World :=
  match cache_index_func T self kwargs with
  | Raise e => (Raise e, w)
  | Ok key =>
      match dict_get (kernel_cache w) key with
      | Some pk => PreparedKernel_call T pk args kwargs w
      | None =>
          (Raise (KeyError key),
           add_event (EPrint (PrintException (KeyError key)))
             (add_event
                (EPrint (PrintKeyNotInCache key (dict_keys (kernel_cache w))))
                w))
      end
  end.

(** The call reaches the compilation path: the lock of a static engine is
    unlocked, or the lookup of a dynamic engine misses. *)
Definition reaches_compile_path (T : Toolchain) (self : JitCache)
  (kwargs : kwargs_t) (w : World) : Prop :=
  if dynamic_mode self
  then forall key, cache_index_func T self kwargs = Ok key ->
                   dict_get (kernel_cache w) key = None
  else exists r, cache_lock self = Some r /\
                 is_locked (lock_store w r) = false.

(** The launch event of a prepared kernel for given grid and values. *)
Definition launch_event (pk : PreparedKernel) (g : pyval * pyval * pyval)
  (vals : list pyval) : Event :=
  let '(g0, g1, g2) := g in
  ELaunch (run pk) g0 g1 g2 (stream pk) (function pk)
    (packed_metadata (pk_kernel pk)) (launch_metadata pk)
    (pk_launch_enter_hook pk) (pk_launch_exit_hook pk) vals.

Definition launch_result (T : Toolchain) (pk : PreparedKernel)
  (g : pyval * pyval * pyval) (vals : list pyval) : Outcome pyval :=
  let '(g0, g1, g2) := g in
  launch T (run pk) g0 g1 g2 (stream pk) (function pk)
    (packed_metadata (pk_kernel pk)) (launch_metadata pk)
    (pk_launch_enter_hook pk) (pk_launch_exit_hook pk) vals.

(** ** A frame logic for the monad

    [extends allowed w w'] holds when [w'] differs from [w] only by new
    events, all of them [allowed]. *)

Definition extends (allowed : Event -> bool) (w w' : World) : Prop :=
  kernel_cache w' = kernel_cache w /\
  lock_store w' = lock_store w /\
  next_lock w' = next_lock w /\
  exists evs, trace w' = evs ++ trace w /\ forallb allowed evs = true.

Definition emits_only {A} (allowed : Event -> bool) (m : M A) : Prop :=
  forall w, extends allowed w (snd (m w)).

(** Events other than compilations and launches. *)
Definition quiet (e : Event) : bool :=
  negb (is_compile e) && negb (is_launch e).

Definition not_compile (e : Event) : bool := negb (is_compile e).

(** The state of lock [r] after a sequence of actions, read off the
    [lock()] and [unlock()] calls on it alone. *)
Definition lock_state_after (r : nat) (acts : list Action) (b : bool) : bool :=
  fold_left
    (fun b a =>
       match a with
       | ALock r' => if (r' =? r)%nat then true else b
       | AUnlock r' => if (r' =? r)%nat then false else b
       | ACall _ _ => b
       end) acts b.

(** An entry of [kernel_cache] as the engine [self] stores it: under the
    key the prepared kernel reports, built with the engine's grid flag and
    with the runtime parameter names of the kernel. *)
Definition entry_consistent (T : Toolchain) (self : JitCache)
  (kv : string * PreparedKernel) : Prop :=
  get_key (snd kv) = fst kv /\
  pk_cache_launch_grid (snd kv) = cache_launch_grid self /\
  (concrete_grid (snd kv) <> None <-> cache_launch_grid self = true) /\
  non_const_arg_names (snd kv) = non_const_arg_names_of (fn_params T) /\
  check_keys_clash self (non_const_arg_names (snd kv)) = false.

Definition cache_consistent (T : Toolchain) (self : JitCache)
  (d : pydict PreparedKernel) : Prop :=
  NoDup (dict_keys d) /\ Forall (entry_consistent T self) d.

(** ** A concrete toolchain

    A kernel with the compile-time constants [A] and [B] and the runtime
    arguments [x] and [y].  Its shared-memory need grows with [A]; the device
    offers 101376 bytes.  A callable grid resolves to [(kwargs["N"],)]. *)

Module Demo.

Definition int_of (o : option pyval) : Z :=
  match o with
  | Some (VInt z) => z
  | _ => 0
  end.

Definition compile (kwargs : kwargs_t) : CompiledKernel :=
  let a := int_of (kwargs !! "A") in
  let b := int_of (kwargs !! "B") in
  {| src := 7;
     metadata := {| shared := 1024 * a; metadata_obj := 8 |};
     name := "kernel_A" +:+ NilZero.string_of_int (Z.to_int a)
             +:+ "_B" +:+ NilZero.string_of_int (Z.to_int b);
     kernel := Z.to_nat (1000 * a + b);
     packed_metadata := 9 |}.

Definition toolchain : Toolchain :=
  {| str_ext := fun _ => "<object>";
     fn_run := fun _ kwargs => Ok (compile kwargs);
     fn_params :=
       [ {| p_name := "x"; is_constexpr := false; is_const := false |};
         {| p_name := "y"; is_constexpr := false; is_const := false |};
         {| p_name := "A"; is_constexpr := true; is_const := false |};
         {| p_name := "B"; is_constexpr := true; is_const := false |} ];
     fn_binder := fun _ kwargs =>
       match kwargs !! "x", kwargs !! "y" with
       | Some x, Some y => Ok [x; y]
       | _, _ => Raise TypeError
       end;
     call_grid := fun _ kwargs =>
       match kwargs !! "N" with
       | Some n => Ok (VTuple [n])
       | None => Raise (KeyError "N")
       end;
     get_current_device := 0;
     get_current_stream := fun _ => 1;
     kernel_launch_metadata := fun _ _ _ _ => Ok 2;
     launch_enter_hook := 3;
     launch_exit_hook := 4;
     launcher_cls := fun _ _ => Ok 5;
     max_shared_mem := fun _ => 101376%Z;
     load_binary := fun _ k _ _ => Ok (10, 100 + k, 32%Z, 0%Z);
     launch := fun _ _ _ _ _ _ _ _ _ _ _ => Ok VNone |}.

(** The keyword arguments of a call: selector values [a] and [b], two
    tensors, and a grid given as a tuple. *)
Definition call_kwargs (a b : pyval) : kwargs_t :=
  <["A" := a]> (<["B" := b]> (<["x" := VObject 1]> (<["y" := VObject 2]>
    (<["grid" := VTuple [VInt 128]]> ∅)))).

(** The same with a callable grid and the size [n] it reads. *)
Definition call_kwargs_grid_fn (a b n : pyval) : kwargs_t :=
  <["A" := a]> (<["B" := b]> (<["x" := VObject 1]> (<["y" := VObject 2]>
    (<["N" := n]> (<["grid" := VCallable 0]> ∅))))).

(** [jitcache(check_keys=keys, cache_lock=lock, cache_launch_grid=g)] around
    the kernel, as a value. *)
Definition engine (keys : list string) (lock : option nat) (g : bool)
  : JitCache :=
  {| arg_names := ["x"; "y"; "A"; "B"];
     check_keys := keys;
     cache_lock := lock;
     cache_launch_grid := g;
     dynamic_mode := match lock with None => true | Some _ => false end |}.

End Demo.

(** * Properties *)

(** ** Dictionaries *)

Section DictFacts.

Context {V : Type}.
Implicit Types (d : pydict V) (k : string) (v : V).

Lemma dict_get_set_eq d k v : dict_get (dict_set d k v) k = Some v.
Proof.
  induction d as [|[k' v'] d IH]; simpl.
  - now rewrite String.eqb_refl.
  - destruct (String.eqb k' k) eqn:E; simpl; rewrite E; auto.
Qed.

Lemma dict_get_set_ne d k k' v :
  k <> k' -> dict_get (dict_set d k v) k' = dict_get d k'.
Proof.
  intros Hne. induction d as [|[k0 v0] d IH]; simpl.
  - destruct (String.eqb k k') eqn:E; auto.
    apply String.eqb_eq in E. contradiction.
  - destruct (String.eqb k0 k) eqn:E; simpl.
    + apply String.eqb_eq in E. subst k0.
      destruct (String.eqb k k') eqn:E'; auto.
      apply String.eqb_eq in E'. contradiction.
    + now rewrite IH.
Qed.

Lemma dict_keys_set_present d k v :
  dict_mem k d = true -> dict_keys (dict_set d k v) = dict_keys d.
Proof.
  unfold dict_mem, dict_keys.
  induction d as [|[k0 v0] d IH]; simpl; [discriminate|].
  destruct (String.eqb k0 k) eqn:E; simpl; auto.
  intros H. now rewrite IH.
Qed.

Lemma dict_keys_set_absent d k v :
  dict_mem k d = false -> dict_keys (dict_set d k v) = dict_keys d ++ [k].
Proof.
  unfold dict_mem, dict_keys.
  induction d as [|[k0 v0] d IH]; simpl; auto.
  destruct (String.eqb k0 k) eqn:E; simpl; [discriminate|].
  intros H. now rewrite IH.
Qed.

Lemma dict_mem_get d k : dict_mem k d = true <-> exists v, dict_get d k = Some v.
Proof.
  unfold dict_mem. destruct (dict_get d k) as [v|]; split.
  - eauto.
  - reflexivity.
  - discriminate.
  - intros [v H]. discriminate.
Qed.

End DictFacts.

(** ** Counting events *)

Lemma count_events_app p t1 t2 :
  count_events p (t1 ++ t2) = (count_events p t1 + count_events p t2)%nat.
Proof.
  unfold count_events. now rewrite List.filter_app, length_app.
Qed.

Lemma count_events_cons p e t :
  count_events p (e :: t) =
  ((if p e then 1 else 0) + count_events p t)%nat.
Proof.
  unfold count_events. simpl. now destruct (p e).
Qed.

Lemma count_events_none p t :
  forallb (fun e => negb (p e)) t = true -> count_events p t = 0%nat.
Proof.
  induction t as [|e t IH]; simpl; auto.
  intros H. apply andb_prop in H as [H1 H2].
  rewrite count_events_cons, IH by assumption.
  destruct (p e); [discriminate|reflexivity].
Qed.


Lemma extends_refl allowed w : extends allowed w w.
Proof. repeat split. exists []. auto. Qed.

Lemma extends_trans allowed w1 w2 w3 :
  extends allowed w1 w2 -> extends allowed w2 w3 -> extends allowed w1 w3.
Proof.
  intros (C1 & L1 & N1 & e1 & T1 & F1) (C2 & L2 & N2 & e2 & T2 & F2).
  repeat split; try congruence.
  exists (e2 ++ e1). split.
  - rewrite T2, T1. now rewrite app_assoc.
  - rewrite forallb_app. now rewrite F1, F2.
Qed.

Lemma extends_count p allowed w w' :
  (forall e, allowed e = true -> p e = false) ->
  extends allowed w w' ->
  count_events p (trace w') = count_events p (trace w).
Proof.
  intros Hp (_ & _ & _ & evs & Tr & F).
  rewrite Tr, count_events_app, count_events_none; auto.
  apply forallb_forall. intros e He.
  rewrite Hp; auto. revert e He. now apply forallb_forall.
Qed.

Section FrameRules.

Context {A B : Type} (allowed : Event -> bool).

Lemma emits_only_ret (a : A) : emits_only allowed (ret a).
Proof. intros w. apply extends_refl. Qed.

Lemma emits_only_raise e : emits_only allowed (@raise A e).
Proof. intros w. apply extends_refl. Qed.

Lemma emits_only_lift (r : Outcome A) : emits_only allowed (lift r).
Proof. intros w. apply extends_refl. Qed.

Lemma emits_only_bind (m : M A) (k : A -> M B) :
  emits_only allowed m -> (forall a, emits_only allowed (k a)) ->
  emits_only allowed (bind m k).
Proof.
  intros Hm Hk w. unfold bind. specialize (Hm w).
  destruct (m w) as [[a|e] w1]; simpl in *; auto.
  eapply extends_trans; [exact Hm|apply Hk].
Qed.

Lemma emits_only_try (body : M A) (handler : string -> M A) :
  emits_only allowed body -> (forall k, emits_only allowed (handler k)) ->
  emits_only allowed (try_except_KeyError body handler).
Proof.
  intros Hb Hh w. unfold try_except_KeyError. specialize (Hb w).
  destruct (body w) as [[a|[]] w1]; simpl in *; auto.
  eapply extends_trans; [exact Hb|apply Hh].
Qed.

End FrameRules.

Lemma emits_only_emit allowed e :
  allowed e = true -> emits_only allowed (emit e).
Proof.
  intros H w. unfold emit; simpl. repeat split.
  exists [e]. simpl. now rewrite H.
Qed.

Lemma emits_only_get_cache allowed : emits_only allowed get_cache.
Proof. intros w. apply extends_refl. Qed.

Lemma emits_only_get_lock allowed r : emits_only allowed (get_lock r).
Proof. intros w. apply extends_refl. Qed.

Lemma emits_only_mapM {A B} allowed (f : A -> M B) l :
  (forall a, emits_only allowed (f a)) -> emits_only allowed (mapM f l).
Proof.
  intros Hf. induction l as [|a l IH]; simpl.
  - apply emits_only_ret.
  - apply emits_only_bind; [apply Hf|]. intros b.
    apply emits_only_bind; [apply IH|]. intros bs. apply emits_only_ret.
Qed.

Lemma emits_only_py_assert allowed b : emits_only allowed (py_assert b).
Proof. intros w. destruct b; apply extends_refl. Qed.

(** Applies the frame rules along the structure of a computation. *)
Ltac frame_step :=
  first
    [ apply emits_only_ret
    | apply emits_only_raise
    | apply emits_only_lift
    | apply emits_only_get_cache
    | apply emits_only_get_lock
    | apply emits_only_py_assert
    | apply emits_only_emit; reflexivity
    | apply emits_only_bind; [|intros ?]
    | apply emits_only_try; [|intros ?]
    | apply emits_only_mapM; intros ?
    | match goal with
      | |- emits_only _ (if ?b then _ else _) => destruct b
      | |- emits_only _ (match ?x with _ => _ end) => destruct x
      | |- emits_only _ (let _ := _ in _) => cbv zeta
      end ].

Ltac frame_with tac := repeat first [ tac | frame_step ].

Ltac frame := frame_with fail.

(** ** Running computations in proofs *)

Lemma bind_ok {A B} (m : M A) (k : A -> M B) w b w' :
  bind m k w = (Ok b, w') ->
  exists a w1, m w = (Ok a, w1) /\ k a w1 = (Ok b, w').
Proof.
  unfold bind. destruct (m w) as [[a|e] w1]; intros H.
  - eauto.
  - discriminate.
Qed.

Lemma bind_run_ok {A B} (m : M A) (k : A -> M B) w a w1 :
  m w = (Ok a, w1) -> bind m k w = k a w1.
Proof. intros H. unfold bind. now rewrite H. Qed.

Lemma bind_emit {B} e (k : unit -> M B) w :
  bind (emit e) k w = k tt (snd (emit e w)).
Proof. reflexivity. Qed.

(** Destructs the innermost scrutinee of a [match] in hypothesis [H]. *)
Ltac case_in H :=
  match type of H with
  | context [match ?x with _ => _ end] =>
      lazymatch x with
      | context [match _ with _ => _ end] => fail
      | _ => let E := fresh "E" in destruct x eqn:E; try discriminate H
      end
  end.

Ltac munfold :=
  unfold bind, lift, ret, raise, emit, get_cache, put_cache, py_assert,
    get_lock, try_except_KeyError.

Ltac munfold_in H :=
  unfold bind, lift, ret, raise, emit, get_cache, put_cache, py_assert,
    get_lock, try_except_KeyError in H.

(** ** Facts about the engine *)


Section EngineFacts.

Variable T : Toolchain.

Lemma py_call_frame f kwargs : emits_only quiet (py_call T f kwargs).
Proof. unfold py_call. frame. Qed.

Lemma init_handles_frame k dev :
  emits_only quiet (PreparedKernel_init_handles T k dev).
Proof. unfold PreparedKernel_init_handles. frame. Qed.

Lemma PreparedKernel_init_frame g grid clg k lm en ex nc key dev strm :
  emits_only quiet (PreparedKernel_init T g grid clg k lm en ex nc key dev strm).
Proof.
  unfold PreparedKernel_init. frame_with ltac:(apply init_handles_frame).
Qed.

Lemma check_key_types_pure keys kwargs w :
  snd (check_key_types keys kwargs w) = w.
Proof.
  induction keys as [|key keys IH]; simpl; auto.
  munfold. destruct (getitem kwargs key); simpl; auto.
  destruct (is_index_type a); simpl; auto.
Qed.

Lemma prepare_frame self args kwargs w :
  extends quiet
    (snd (emit (ECompile args (<["warmup" := VBool true]> kwargs)) w))
    (snd (JitCache_get_prepared_kernel T self args kwargs w)).
Proof.
  unfold JitCache_get_prepared_kernel. rewrite bind_emit.
  generalize (snd (emit (ECompile args (<["warmup" := VBool true]> kwargs)) w)).
  change (emits_only quiet
    (let! k := lift (fn_run T args (<["warmup" := VBool true]> kwargs)) in
     if check_keys_clash self (non_const_arg_names_of (fn_params T))
     then raise (RuntimeError msg_check_keys)
     else
       let! non_constexpr_vals :=
         lift (fn_binder T args (<["warmup" := VBool true]> kwargs)) in
       let! g := lift (getitem (<["warmup" := VBool true]> kwargs) "grid") in
       let! grid := (if callable g
                     then py_call T g (<["warmup" := VBool true]> kwargs)
                     else ret g) in
       let! lm := lift (kernel_launch_metadata T k grid
                          (get_current_stream T (get_current_device T))
                          non_constexpr_vals) in
       let! key := lift (cache_index_func T self
                           (<["warmup" := VBool true]> kwargs)) in
       let! prepared_kernel :=
         PreparedKernel_init T g grid (cache_launch_grid self) k lm
           (launch_enter_hook T) (launch_exit_hook T)
           (non_const_arg_names_of (fn_params T)) key
           (get_current_device T)
           (get_current_stream T (get_current_device T)) in
       do! emit (ELog LogCompileTimes) in
       ret prepared_kernel)).
  frame_with ltac:(first [ apply py_call_frame
                         | apply PreparedKernel_init_frame ]).
Qed.

Lemma prepare_cache self args kwargs w :
  kernel_cache (snd (JitCache_get_prepared_kernel T self args kwargs w))
  = kernel_cache w.
Proof. destruct (prepare_frame self args kwargs w) as (C & _). exact C. Qed.

Lemma prepare_compile_count self args kwargs w :
  compile_count (snd (JitCache_get_prepared_kernel T self args kwargs w))
  = S (compile_count w).
Proof.
  unfold compile_count.
  rewrite (extends_count is_compile quiet _ _ ltac:(intros [] ?; auto; discriminate)
             (prepare_frame self args kwargs w)).
  reflexivity.
Qed.

Lemma PreparedKernel_call_frame pk args kwargs :
  emits_only not_compile (PreparedKernel_call T pk args kwargs).
Proof.
  unfold PreparedKernel_call, resolve_grid_per_call, py_call. frame.
Qed.

End EngineFacts.

(** ** Key derivation *)

Lemma string_app_nil_r (s : string) : s +:+ "" = s.
Proof.
  induction s as [|c s IH]; [reflexivity|].
  change (String c (s +:+ "") = String c s). now rewrite IH.
Qed.

Lemma string_app_assoc (s1 s2 s3 : string) :
  (s1 +:+ s2) +:+ s3 = s1 +:+ (s2 +:+ s3).
Proof.
  induction s1 as [|c s1 IH]; [reflexivity|].
  change (String c ((s1 +:+ s2) +:+ s3) = String c (s1 +:+ (s2 +:+ s3))).
  now rewrite IH.
Qed.

Lemma concat_empty_sep_cons (s : string) (l : list string) :
  String.concat "" (s :: l) = s +:+ String.concat "" l.
Proof.
  destruct l as [|s' l].
  - cbn [String.concat]. now rewrite string_app_nil_r.
  - reflexivity.
Qed.

Section KeyFacts.

Variable T : Toolchain.

Lemma calc_cache_index_loop_spec keys : forall acc kwargs,
  calc_cache_index_loop T acc keys kwargs =
  match selector_values keys kwargs with
  | Ok vs => Ok (acc +:+ String.concat "" (map (py_str T) vs))
  | Raise e => Raise e
  end.
Proof.
  induction keys as [|key keys IH]; intros acc kwargs;
    cbn [calc_cache_index_loop selector_values].
  - cbn [map String.concat]. now rewrite string_app_nil_r.
  - destruct (getitem kwargs key) as [v|e]; auto.
    rewrite IH. destruct (selector_values keys kwargs) as [vs|e]; auto.
    cbn [map]. now rewrite concat_empty_sep_cons, string_app_assoc.
Qed.

Lemma cache_index_func_spec self kwargs :
  cache_index_func T self kwargs = spec_cache_key T (check_keys self) kwargs.
Proof.
  unfold cache_index_func, spec_cache_key, calc_cache_index.
  destruct (check_keys self) as [|key keys] eqn:E; auto.
  cbn [length Nat.eqb]. now rewrite calc_cache_index_loop_spec.
Qed.

Lemma selector_values_insert_fresh keys k v kwargs :
  ~ In k keys ->
  selector_values keys (<[k := v]> kwargs) = selector_values keys kwargs.
Proof.
  induction keys as [|key keys IH]; simpl; auto.
  intros Hn. unfold getitem.
  rewrite lookup_insert_ne by (intros ->; apply Hn; now left).
  rewrite IH by (intros Hin; apply Hn; now right). reflexivity.
Qed.

Lemma cache_index_func_warmup self v kwargs :
  ~ In "warmup" (check_keys self) ->
  cache_index_func T self (<["warmup" := v]> kwargs)
  = cache_index_func T self kwargs.
Proof.
  intros Hn. rewrite !cache_index_func_spec. unfold spec_cache_key.
  now rewrite selector_values_insert_fresh.
Qed.

End KeyFacts.

(** C3. The derived cache key is the concatenation of the string
    representations of the selector values in [check_keys] order, and the
    fixed sentinel ["_default_"] when [check_keys] is empty (first
    conjunct, against [spec_cache_key]); two calls with the same selector
    values derive the same key; with no selector key every call derives the
    sentinel, whatever its arguments. *)
Theorem cache_key_is_concatenation (T : Toolchain) (self : JitCache)
  (kwargs : kwargs_t) :
  cache_index_func T self kwargs = spec_cache_key T (check_keys self) kwargs
  /\ (forall kwargs',
        selector_values (check_keys self) kwargs'
        = selector_values (check_keys self) kwargs ->
        cache_index_func T self kwargs' = cache_index_func T self kwargs)
  /\ (check_keys self = [] -> cache_index_func T self kwargs = Ok "_default_").
Proof.
  split; [apply cache_index_func_spec|split].
  - intros kwargs' H. rewrite !cache_index_func_spec.
    unfold spec_cache_key. now rewrite H.
  - intros H. unfold cache_index_func. now rewrite H.
Qed.

Lemma cache_key_is_concatenation_witness :
  cache_index_func Demo.toolchain (Demo.engine ["A"; "B"] None false)
    (Demo.call_kwargs (VInt 4) (VBool true)) = Ok "4True"
  /\ cache_index_func Demo.toolchain (Demo.engine ["A"; "B"] None false)
       (Demo.call_kwargs_grid_fn (VInt 4) (VBool true) (VInt 64))
     = cache_index_func Demo.toolchain (Demo.engine ["A"; "B"] None false)
         (Demo.call_kwargs (VInt 4) (VBool true))
  /\ cache_index_func Demo.toolchain (Demo.engine [] None false)
       (Demo.call_kwargs (VInt 4) (VBool true)) = Ok "_default_".
Proof.
  split; [|split].
  - destruct (cache_key_is_concatenation Demo.toolchain
                (Demo.engine ["A"; "B"] None false)
                (Demo.call_kwargs (VInt 4) (VBool true))) as (H & _ & _).
    rewrite H. vm_compute. reflexivity.
  - destruct (cache_key_is_concatenation Demo.toolchain
                (Demo.engine ["A"; "B"] None false)
                (Demo.call_kwargs (VInt 4) (VBool true))) as (_ & H & _).
    apply H. vm_compute. reflexivity.
  - destruct (cache_key_is_concatenation Demo.toolchain
                (Demo.engine [] None false)
                (Demo.call_kwargs (VInt 4) (VBool true))) as (_ & _ & H).
    apply H. reflexivity.
Defined.

(** ** The type check of the selector values *)

Section TypeCheck.

Lemma check_key_types_ok keys kwargs w :
  selector_types_ok keys kwargs -> check_key_types keys kwargs w = (Ok tt, w).
Proof.
  induction 1 as [|key keys (v & Hv & Ht) _ IH]; cbn [check_key_types].
  - reflexivity.
  - munfold. unfold getitem. now rewrite Hv, Ht.
Qed.

(** A selector value of another type stops the loop with an exception, and
    with [AssertionError] when every selector key is bound. *)
Lemma check_key_types_bad keys kwargs key v w :
  In key keys -> kwargs !! key = Some v -> is_index_type v = false ->
  exists e, check_key_types keys kwargs w = (Raise e, w) /\
            ((forall k, In k keys -> exists u, kwargs !! k = Some u) ->
             e = AssertionError).
Proof.
  intros Hin Hv Ht. induction keys as [|k0 keys IH]; [contradiction|].
  cbn [check_key_types]. munfold. unfold getitem.
  destruct (kwargs !! k0) as [v0|] eqn:Hv0.
  - destruct (is_index_type v0) eqn:Ht0.
    + destruct Hin as [->|Hin]; [congruence|].
      destruct (IH Hin) as (e & He & Hall).
      exists e. split; [exact He|].
      intros Hb. apply Hall. intros k Hk. apply Hb. now right.
    + exists AssertionError. split; auto.
  - exists (KeyError k0). split; auto.
    intros Hb. destruct (Hb k0) as (u & Hu); [now left|congruence].
Qed.

End TypeCheck.

(** ** Facts about a successful compilation *)

Section PrepareFacts.

Variable T : Toolchain.


Lemma PreparedKernel_init_ok g grid clg k lm en ex nc key dev strm w pk w' :
  PreparedKernel_init T g grid clg k lm en ex nc key dev strm w = (Ok pk, w') ->
  cache_key pk = key /\ pk_cache_launch_grid pk = clg /\
  non_const_arg_names pk = nc /\ grid_obj pk = g /\
  (clg = true ->
   exists items, seq_items grid = Some items /\
                 concrete_grid pk = grid3 items /\ items <> []).
Proof.
  unfold PreparedKernel_init, PreparedKernel_init_handles, grid_dim.
  munfold. intros H.
  destruct grid as [| | | | |items|items| |]; cbn [py_len py_index] in H;
    try discriminate H.
  all: destruct clg.
  all: repeat case_in H.
  all: injection H as <- _; cbn.
  all: split_and!; auto; try discriminate.
  all: intros _; exists items; split; [reflexivity|].
  all: destruct items as [|i0 [|i1 [|i2 items]]]; cbn in *;
       try discriminate; split; congruence.
Qed.

Lemma prepare_ok self args kwargs w pk w' :
  JitCache_get_prepared_kernel T self args kwargs w = (Ok pk, w') ->
  cache_index_func T self (<["warmup" := VBool true]> kwargs)
  = Ok (get_key pk) /\
  pk_cache_launch_grid pk = cache_launch_grid self /\
  non_const_arg_names pk = non_const_arg_names_of (fn_params T) /\
  check_keys_clash self (non_const_arg_names_of (fn_params T)) = false /\
  (cache_launch_grid self = true ->
   exists grid items,
     prepare_time_grid T (<["warmup" := VBool true]> kwargs) = Ok grid /\
     seq_items grid = Some items /\
     concrete_grid pk = grid3 items /\ items <> []).
Proof.
  unfold JitCache_get_prepared_kernel. intros H.
  apply bind_ok in H as ([] & w0 & _ & H).
  apply bind_ok in H as (k & w1 & _ & H).
  destruct (check_keys_clash self _) eqn:Hclash; [discriminate H|].
  apply bind_ok in H as (vals & w2 & _ & H).
  apply bind_ok in H as (g & w3 & Hg & H).
  apply bind_ok in H as (grid & w4 & Hgrid & H).
  apply bind_ok in H as (lm & w5 & _ & H).
  apply bind_ok in H as (key & w6 & Hkey & H).
  apply bind_ok in H as (pk' & w7 & Hinit & H).
  apply bind_ok in H as ([] & w8 & _ & H).
  injection H as -> _.
  apply PreparedKernel_init_ok in Hinit as (Hk & Hclg & Hnc & _ & Hcg).
  unfold lift in Hkey, Hg. injection Hkey as Hkey _. injection Hg as Hg _.
  unfold get_key. rewrite Hk. split_and!; auto.
  intros Hs. destruct (Hcg Hs) as (items & Hi & Hc & Hne).
  exists grid, items. split; [|auto].
  unfold prepare_time_grid. rewrite Hg.
  unfold py_call in Hgrid. munfold_in Hgrid.
  destruct g; cbn [callable] in Hgrid; injection Hgrid as -> _; reflexivity.
Qed.

(** When a selector key names a runtime parameter, the compilation step
    raises right after the toolchain has compiled. *)
Lemma prepare_clash self args kwargs w :
  check_keys_clash self (non_const_arg_names_of (fn_params T)) = true ->
  JitCache_get_prepared_kernel T self args kwargs w =
  (match fn_run T args (<["warmup" := VBool true]> kwargs) with
   | Ok _ => Raise (RuntimeError msg_check_keys)
   | Raise e => Raise e
   end,
   snd (emit (ECompile args (<["warmup" := VBool true]> kwargs)) w)).
Proof.
  intros Hclash. unfold JitCache_get_prepared_kernel.
  rewrite bind_emit. unfold bind at 1. unfold lift at 1.
  destruct (fn_run T args _); [|reflexivity].
  now rewrite Hclash.
Qed.

End PrepareFacts.

(** ** The two dispatch paths, step by step *)


Section RunFacts.

Variable T : Toolchain.

Lemma check_call_shape_pure args kwargs w :
  snd (check_call_shape args kwargs w) = w.
Proof.
  unfold check_call_shape. munfold.
  destruct (length args =? 0)%nat; cbn; [|reflexivity].
  now destruct (pre_hook_ok kwargs).
Qed.

Lemma check_call_shape_ok kwargs w :
  pre_hook_ok kwargs = true -> check_call_shape [] kwargs w = (Ok tt, w).
Proof. intros H. unfold check_call_shape. munfold. cbn. now rewrite H. Qed.


Lemma static_tail_eq self args kwargs w :
  bind
    (try_except_KeyError (cache_lookup T self kwargs)
       (fun e =>
          let! key := lift (cache_index_func T self kwargs) in
          let! d := get_cache in
          do! emit (EPrint (PrintKeyNotInCache key (dict_keys d))) in
          do! emit (EPrint (PrintException (KeyError e))) in
          raise (KeyError e)))
    (fun kernel_variant => PreparedKernel_call T kernel_variant args kwargs) w
  = static_lookup_and_call T self args kwargs w.
Proof.
  unfold static_lookup_and_call, cache_lookup, cache_getitem.
  munfold. destruct (cache_index_func T self kwargs) as [key|[]] eqn:E; cbn;
    try reflexivity.
  destruct (dict_get (kernel_cache w) key); cbn; reflexivity.
Qed.

Lemma run_static_eq self args kwargs w :
  JitCache_run_static T self args kwargs w =
  match fst (check_call_shape args kwargs w) with
  | Raise e => (Raise e, w)
  | Ok _ =>
      match cache_lock self with
      | None => (Raise (AttributeError "is_locked"), w)
      | Some r =>
          if is_locked (lock_store w r)
          then static_lookup_and_call T self args kwargs w
          else
            match fst (check_key_types (check_keys self) kwargs w) with
            | Raise e => (Raise e, w)
            | Ok _ =>
                match JitCache_get_prepared_kernel T self args kwargs w with
                | (Raise e, w1) => (Raise e, w1)
                | (Ok pk, w1) =>
                    let w2 :=
                      if dict_mem (get_key pk) (kernel_cache w1)
                      then add_event (ELog LogOverrideWarning) w1 else w1 in
                    static_lookup_and_call T self args kwargs
                      (set_cache
                         (dict_set (kernel_cache w2) (get_key pk) pk) w2)
                end
            end
      end
  end.
Proof.
  unfold JitCache_run_static.
  unfold bind at 1.
  pose proof (check_call_shape_pure args kwargs w) as Hs.
  destruct (check_call_shape args kwargs w) as [[[]|e] w0]; cbn [snd] in Hs; subst w0;
    cbn [fst]; [|reflexivity].
  unfold bind at 1. unfold lock_is_locked.
  destruct (cache_lock self) as [r|]; [|reflexivity].
  change ((let! l := get_lock r in ret (is_locked l)) w)
    with (Ok (is_locked (lock_store w r)), w).
  cbv beta iota. destruct (is_locked (lock_store w r)); cbn [negb].
  - rewrite bind_run_ok with (a := tt) (w1 := w) by reflexivity.
    apply static_tail_eq.
  - unfold bind at 1. unfold bind at 1.
    pose proof (check_key_types_pure (check_keys self) kwargs w) as Hc.
    destruct (check_key_types (check_keys self) kwargs w) as [[[]|e] w0];
      cbn [snd] in Hc; subst w0; cbn [fst]; [|reflexivity].
    unfold bind at 1.
    destruct (JitCache_get_prepared_kernel T self args kwargs w)
      as [[pk|e] w1]; [|reflexivity].
    unfold bind at 1. unfold get_cache at 1. cbv beta iota.
    unfold bind at 1.
    destruct (dict_mem (get_key pk) (kernel_cache w1)); cbv zeta.
    + rewrite <- static_tail_eq. reflexivity.
    + rewrite <- static_tail_eq. reflexivity.
Qed.

Lemma run_dynamic_eq self args kwargs w :
  JitCache_run_dynamic T self args kwargs w =
  match fst (check_call_shape args kwargs w) with
  | Raise e => (Raise e, w)
  | Ok _ =>
      match cache_index_func T self kwargs with
      | Raise e => (Raise e, w)
      | Ok key =>
          match dict_get (kernel_cache w) key with
          | Some pk => PreparedKernel_call T pk args kwargs w
          | None =>
              let w0 :=
                add_event
                  (ELog (LogMissCompiling key (dict_keys (kernel_cache w))))
                  w in
              match fst (check_key_types (check_keys self) kwargs w0) with
              | Raise e => (Raise e, w0)
              | Ok _ =>
                  match JitCache_get_prepared_kernel T self args kwargs w0 with
                  | (Raise e, w1) => (Raise e, w1)
                  | (Ok pk, w1) =>
                      PreparedKernel_call T pk args kwargs
                        (set_cache
                           (dict_set (kernel_cache w1) (get_key pk) pk) w1)
                  end
              end
          end
      end
  end.
Proof.
  unfold JitCache_run_dynamic.
  unfold bind at 1.
  pose proof (check_call_shape_pure args kwargs w) as Hs.
  destruct (check_call_shape args kwargs w) as [[[]|e] w0]; cbn [snd] in Hs; subst w0;
    cbn [fst]; [|reflexivity].
  unfold bind at 1. unfold try_except_KeyError, cache_lookup, cache_getitem.
  unfold bind at 1. unfold lift at 1.
  destruct (cache_index_func T self kwargs) as [key|e] eqn:E.
  - unfold bind at 1. unfold get_cache at 1. cbv beta iota.
    destruct (dict_get (kernel_cache w) key) as [pk|]; [reflexivity|].
    unfold raise at 1. cbv beta iota.
    unfold bind at 1. unfold lift at 1. cbv beta iota.
    unfold bind at 1. unfold get_cache at 1. cbv beta iota.
    rewrite bind_emit. cbv zeta. fold (add_event
      (ELog (LogMissCompiling key (dict_keys (kernel_cache w)))) w).
    set (w0 := add_event _ w).
    unfold bind at 1.
    pose proof (check_key_types_pure (check_keys self) kwargs w0) as Hc.
    destruct (check_key_types (check_keys self) kwargs w0) as [[[]|e] w0'];
      cbn [snd] in Hc; subst w0'; cbn [fst]; [|reflexivity].
    unfold bind at 1.
    destruct (JitCache_get_prepared_kernel T self args kwargs w0)
      as [[pk|e] w1]; [|reflexivity].
    reflexivity.
  - destruct e; reflexivity.
Qed.

End RunFacts.

(** ** What a call leaves of the world *)

Section CallFacts.

Variable T : Toolchain.

Lemma call_cache pk args kwargs w :
  kernel_cache (snd (PreparedKernel_call T pk args kwargs w)) = kernel_cache w.
Proof. destruct (PreparedKernel_call_frame T pk args kwargs w) as (C & _). exact C. Qed.

Lemma call_compile_count pk args kwargs w :
  compile_count (snd (PreparedKernel_call T pk args kwargs w)) = compile_count w.
Proof.
  unfold compile_count.
  apply (extends_count is_compile not_compile).
  - intros e. unfold not_compile. now destruct (is_compile e).
  - apply PreparedKernel_call_frame.
Qed.

Lemma prepare_ok_key self args kwargs w pk w' key :
  ~ In "warmup" (check_keys self) ->
  cache_index_func T self kwargs = Ok key ->
  JitCache_get_prepared_kernel T self args kwargs w = (Ok pk, w') ->
  get_key pk = key.
Proof.
  intros Hw Hk H. apply prepare_ok in H as (Hkey & _).
  rewrite cache_index_func_warmup in Hkey by assumption. congruence.
Qed.

Lemma run_dynamic_hit self kwargs w key pk :
  pre_hook_ok kwargs = true ->
  cache_index_func T self kwargs = Ok key ->
  dict_get (kernel_cache w) key = Some pk ->
  JitCache_run_dynamic T self [] kwargs w = PreparedKernel_call T pk [] kwargs w.
Proof.
  intros Hp Hk Hg. rewrite run_dynamic_eq, check_call_shape_ok by assumption.
  cbn [fst]. now rewrite Hk, Hg.
Qed.

(** In dynamic mode a call never replaces an entry of the cache. *)
Lemma run_dynamic_preserves_entry self args kwargs w key pk :
  ~ In "warmup" (check_keys self) ->
  dict_get (kernel_cache w) key = Some pk ->
  dict_get (kernel_cache (snd (JitCache_run_dynamic T self args kwargs w))) key
  = Some pk.
Proof.
  intros Hw Hg. rewrite run_dynamic_eq.
  destruct (fst (check_call_shape args kwargs w)); [|exact Hg].
  destruct (cache_index_func T self kwargs) as [key'|] eqn:Hk; [|exact Hg].
  destruct (dict_get (kernel_cache w) key') as [pk'|] eqn:Hg'.
  - now rewrite call_cache.
  - cbv zeta.
    set (w0 := add_event _ w).
    destruct (fst (check_key_types (check_keys self) kwargs w0)); [|exact Hg].
    pose proof (prepare_cache T self args kwargs w0) as Hc.
    destruct (JitCache_get_prepared_kernel T self args kwargs w0)
      as [[pk'|e] w1] eqn:Hp; cbn [snd] in Hc.
    + rewrite call_cache. cbn [set_cache put_cache snd kernel_cache].
      rewrite (prepare_ok_key _ _ _ _ _ _ _ Hw Hk Hp).
      rewrite dict_get_set_ne by congruence.
      rewrite Hc. exact Hg.
    + cbn [snd]. rewrite Hc. exact Hg.
Qed.

Lemma run_actions_preserve_entry self acts : forall w key pk,
  dynamic_mode self = true ->
  ~ In "warmup" (check_keys self) ->
  dict_get (kernel_cache w) key = Some pk ->
  dict_get (kernel_cache (run_actions T self acts w)) key = Some pk.
Proof.
  induction acts as [|a acts IH]; intros w key pk Hd Hw Hg; [exact Hg|].
  cbn [run_actions fold_left]. apply IH; auto.
  destruct a as [args kwargs|r|r]; cbn [run_action].
  - unfold JitCache_run. rewrite Hd.
    now apply run_dynamic_preserves_entry.
  - exact Hg.
  - exact Hg.
Qed.

End CallFacts.

(** ** Dynamic mode *)

Lemma check_key_types_ok_inv keys kwargs w :
  fst (check_key_types keys kwargs w) = Ok tt ->
  selector_types_ok keys kwargs.
Proof.
  induction keys as [|key keys IH]; cbn [check_key_types]; intros H.
  - constructor.
  - munfold_in H. unfold getitem in H.
    destruct (kwargs !! key) as [v|] eqn:Hv; [|discriminate].
    destruct (is_index_type v) eqn:Ht; [|discriminate].
    constructor; [eauto|]. apply IH. exact H.
Qed.

(** C1, as amended.  In dynamic mode (and with [warmup], the keyword the
    engine itself passes to the compiler, not among the selector keys), a
    keyword-only call that derives the key [key]:
    - when [key] is absent from the cache and the selector values are of the
      allowed types, triggers exactly one compilation, whatever the call
      then does.  When that compilation returns a prepared kernel, the call
      inserts it under [key] and then invokes it, whether or not the launch
      succeeds; afterwards, whatever calls and lock operations come in
      between, every call that derives [key] invokes that same prepared
      kernel and compiles nothing.  When the compilation raises, the call
      raises the same exception and the cache is as before.  A call that
      returns normally on a miss is such a call: its selector values are of
      the allowed types and its compilation returned a prepared kernel;
    - when [key] is present, compiles nothing, leaves the cache as it is and
      invokes the cached prepared kernel. *)
Theorem dynamic_compiles_once_per_key (T : Toolchain) (self : JitCache)
  (kwargs : kwargs_t) (key : string) (w : World) :
  dynamic_mode self = true ->
  ~ In "warmup" (check_keys self) ->
  pre_hook_ok kwargs = true ->
  cache_index_func T self kwargs = Ok key ->
  let res := fst (JitCache_run T self [] kwargs w) in
  let w' := snd (JitCache_run T self [] kwargs w) in
  let w0 :=
    add_event (ELog (LogMissCompiling key (dict_keys (kernel_cache w)))) w in
  (dict_get (kernel_cache w) key = None ->
   (selector_types_ok (check_keys self) kwargs ->
    compile_count w' = S (compile_count w) /\
    (forall pk w1,
       JitCache_get_prepared_kernel T self [] kwargs w0 = (Ok pk, w1) ->
       get_key pk = key /\
       kernel_cache w' = dict_set (kernel_cache w) key pk /\
       (res, w')
       = PreparedKernel_call T pk [] kwargs
           (set_cache (dict_set (kernel_cache w) key pk) w1) /\
       forall acts kwargs2,
         pre_hook_ok kwargs2 = true ->
         cache_index_func T self kwargs2 = Ok key ->
         let w2 := run_actions T self acts w' in
         JitCache_run T self [] kwargs2 w2
         = PreparedKernel_call T pk [] kwargs2 w2 /\
         compile_count (snd (JitCache_run T self [] kwargs2 w2))
         = compile_count w2) /\
    (forall e w1,
       JitCache_get_prepared_kernel T self [] kwargs w0 = (Raise e, w1) ->
       res = Raise e /\ kernel_cache w' = kernel_cache w)) /\
   (is_ok res = true ->
    selector_types_ok (check_keys self) kwargs /\
    exists pk w1,
      JitCache_get_prepared_kernel T self [] kwargs w0 = (Ok pk, w1)))
  /\
  (forall pk, dict_get (kernel_cache w) key = Some pk ->
   JitCache_run T self [] kwargs w = PreparedKernel_call T pk [] kwargs w /\
   compile_count w' = compile_count w /\
   kernel_cache w' = kernel_cache w).
Proof.
  intros Hd Hw Hp Hk res w' w0. subst res w'.
  unfold JitCache_run. rewrite Hd. split.
  - intros Hg.
    rewrite run_dynamic_eq, check_call_shape_ok by assumption.
    cbn [fst]. rewrite Hk, Hg. cbv zeta. fold w0.
    pose proof (prepare_cache T self [] kwargs w0) as Hc.
    pose proof (prepare_compile_count T self [] kwargs w0) as Hn.
    split.
    + intros Ht. rewrite (check_key_types_ok _ _ w0 Ht). cbn [fst].
      destruct (JitCache_get_prepared_kernel T self [] kwargs w0)
        as [[pk|e] w1] eqn:Hprep; cbn [snd] in Hc, Hn.
      * split; [rewrite call_compile_count; exact Hn|].
        split; [|intros e w2 [=]].
        intros pk' w2 [= <- <-].
        pose proof (prepare_ok_key T _ _ _ _ _ _ _ Hw Hk Hprep) as Hkey.
        change (kernel_cache w0) with (kernel_cache w) in Hc.
        rewrite Hkey, Hc.
        assert (Hcache :
          kernel_cache
            (snd (PreparedKernel_call T pk [] kwargs
                    (set_cache (dict_set (kernel_cache w) key pk) w1)))
          = dict_set (kernel_cache w) key pk).
        { rewrite call_cache. reflexivity. }
        split_and!; auto.
        -- symmetry. apply surjective_pairing.
        -- intros acts kwargs2 Hp2 Hk2.
           set (w2 := run_actions T self acts _).
           assert (Hg2 : dict_get (kernel_cache w2) key = Some pk).
           { apply run_actions_preserve_entry; auto.
             rewrite Hcache. apply dict_get_set_eq. }
           rewrite (run_dynamic_hit T self kwargs2 w2 key pk Hp2 Hk2 Hg2).
           split; [reflexivity|apply call_compile_count].
      * cbn [fst snd]. split; [exact Hn|].
        split; [intros pk w2 [=]|].
        intros e' w2 [= <- <-]. split; [reflexivity|exact Hc].
    + destruct (fst (check_key_types (check_keys self) kwargs w0))
        as [[]|e] eqn:Hct; [|discriminate].
      destruct (JitCache_get_prepared_kernel T self [] kwargs w0)
        as [[pk|e] w1]; [|discriminate].
      intros _. split; [|eauto].
      eapply check_key_types_ok_inv. exact Hct.
  - intros pk Hg.
    rewrite (run_dynamic_hit T self kwargs w key pk Hp Hk Hg).
    split_and!; [reflexivity|apply call_compile_count|apply call_cache].
Qed.

Lemma dynamic_compiles_once_per_key_witness :
  compile_count
    (snd (JitCache_run Demo.toolchain (Demo.engine ["A"; "B"] None false) []
            (Demo.call_kwargs (VInt 1) (VInt 23)) initial_world)) = 1%nat.
Proof.
  destruct (dynamic_compiles_once_per_key Demo.toolchain
              (Demo.engine ["A"; "B"] None false)
              (Demo.call_kwargs (VInt 1) (VInt 23)) "123" initial_world)
    as [Hmiss _].
  - reflexivity.
  - cbn. intros [H|[H|[]]]; discriminate H.
  - reflexivity.
  - reflexivity.
  - destruct Hmiss as [Hc _]; [reflexivity|].
    destruct Hc as [Hc _]; [|exact Hc].
    constructor; [|constructor; [|constructor]].
    + exists (VInt 1). split; reflexivity.
    + exists (VInt 23). split; reflexivity.
Defined.

(** C1 as stated fails: with the selector keys [A] and [B], a call with
    (12, 3) after a call with (1, 23) has a combination of selector values
    that was not seen before, and yet it triggers no compilation, because
    both derive the key ["123"]. *)
Lemma dynamic_unseen_combination_not_compiled :
  let self := Demo.engine ["A"; "B"] None false in
  let first := Demo.call_kwargs (VInt 1) (VInt 23) in
  let second := Demo.call_kwargs (VInt 12) (VInt 3) in
  let w1 := snd (JitCache_run Demo.toolchain self [] first initial_world) in
  let w2 := snd (JitCache_run Demo.toolchain self [] second w1) in
  ~ (selector_values (check_keys self) second
     <> selector_values (check_keys self) first ->
     compile_count w2 = S (compile_count w1)).
Proof.
  intros self first second w1 w2 H.
  assert (Hc : compile_count w2 = S (compile_count w1)).
  { apply H. vm_compute. intros E. discriminate E. }
  vm_compute in Hc. discriminate Hc.
Qed.

(** C9. With two selector keys the derived key is not injective: the
    assignments (1, 23) and (12, 3) differ and both derive ["123"].  So once
    a call with (1, 23) has compiled and returned in dynamic mode, a call
    with (12, 3) compiles nothing and is served the prepared kernel that was
    compiled for (1, 23). *)
Theorem key_collision_serves_other_variant (T : Toolchain) (w0 w1 : World)
  (v : pyval) :
  let self := Demo.engine ["A"; "B"] None false in
  let first := Demo.call_kwargs (VInt 1) (VInt 23) in
  let second := Demo.call_kwargs (VInt 12) (VInt 3) in
  dict_get (kernel_cache w0) "123" = None ->
  JitCache_run T self [] first w0 = (Ok v, w1) ->
  selector_values (check_keys self) first
  <> selector_values (check_keys self) second /\
  cache_index_func T self first = Ok "123" /\
  cache_index_func T self second = Ok "123" /\
  exists pk wl wc,
    JitCache_get_prepared_kernel T self [] first wl = (Ok pk, wc) /\
    JitCache_run T self [] second w1 = PreparedKernel_call T pk [] second w1 /\
    compile_count (snd (JitCache_run T self [] second w1)) = compile_count w1.
Proof.
  intros self first second Hmiss Hrun.
  assert (Hk1 : cache_index_func T self first = Ok "123") by reflexivity.
  assert (Hk2 : cache_index_func T self second = Ok "123") by reflexivity.
  split_and!; try (exact Hk1); try (intros E; discriminate E).
  change (JitCache_run T self) with (JitCache_run_dynamic T self) in *.
  rewrite run_dynamic_eq, check_call_shape_ok in Hrun by reflexivity.
  cbn [fst] in Hrun. rewrite Hk1, Hmiss in Hrun. cbv zeta in Hrun.
  set (wl := add_event _ w0) in Hrun.
  destruct (fst (check_key_types (check_keys self) first wl));
    [|discriminate Hrun].
  pose proof (prepare_cache T self [] first wl) as Hc.
  destruct (JitCache_get_prepared_kernel T self [] first wl)
    as [[pk|e] wc] eqn:Hprep; cbn [snd] in Hc; [|discriminate Hrun].
  assert (Hkey : get_key pk = "123").
  { eapply prepare_ok_key; [|exact Hk1|exact Hprep].
    cbn. intros [H|[H|[]]]; discriminate H. }
  assert (Hg : dict_get (kernel_cache w1) "123" = Some pk).
  { replace w1 with (snd (PreparedKernel_call T pk [] first
       (set_cache (dict_set (kernel_cache wc) (get_key pk) pk) wc)))
      by now rewrite Hrun.
    rewrite call_cache. cbn [set_cache put_cache snd kernel_cache].
    rewrite Hkey. apply dict_get_set_eq. }
  exists pk, wl, wc. split; [exact Hprep|].
  rewrite (run_dynamic_hit T self second w1 "123" pk eq_refl Hk2 Hg).
  split; [reflexivity|apply call_compile_count].
Qed.

Lemma key_collision_serves_other_variant_witness :
  compile_count
    (snd (JitCache_run Demo.toolchain (Demo.engine ["A"; "B"] None false) []
            (Demo.call_kwargs (VInt 12) (VInt 3))
            (snd (JitCache_run Demo.toolchain
                    (Demo.engine ["A"; "B"] None false) []
                    (Demo.call_kwargs (VInt 1) (VInt 23)) initial_world))))
  = 1%nat.
Proof.
  destruct (key_collision_serves_other_variant Demo.toolchain initial_world
              (snd (JitCache_run Demo.toolchain
                      (Demo.engine ["A"; "B"] None false) []
                      (Demo.call_kwargs (VInt 1) (VInt 23)) initial_world))
              VNone)
    as (_ & _ & _ & pk & wl & wc & _ & _ & Hc).
  - reflexivity.
  - vm_compute. reflexivity.
  - rewrite Hc. vm_compute. reflexivity.
Defined.

(** ** Static mode, locked *)

Section StaticFacts.

Variable T : Toolchain.

Lemma add_event_frame allowed e w :
  allowed e = true -> extends allowed w (add_event e w).
Proof. intros H. apply (emits_only_emit allowed e H w). Qed.

Lemma static_lookup_frame self args kwargs w :
  extends not_compile w (snd (static_lookup_and_call T self args kwargs w)).
Proof.
  unfold static_lookup_and_call.
  destruct (cache_index_func T self kwargs) as [key|e];
    [|apply extends_refl].
  destruct (dict_get (kernel_cache w) key) as [pk|].
  - apply PreparedKernel_call_frame.
  - cbn [snd]. eapply extends_trans; apply add_event_frame; reflexivity.
Qed.

Lemma not_compile_count w w' :
  extends not_compile w w' -> compile_count w' = compile_count w.
Proof.
  intros H. unfold compile_count.
  apply (extends_count is_compile not_compile); [|exact H].
  intros e. unfold not_compile. now destruct (is_compile e).
Qed.

Lemma run_static_locked self r args kwargs w :
  cache_lock self = Some r -> is_locked (lock_store w r) = true ->
  JitCache_run_static T self args kwargs w =
  match fst (check_call_shape args kwargs w) with
  | Raise e => (Raise e, w)
  | Ok _ => static_lookup_and_call T self args kwargs w
  end.
Proof. intros Hl Hb. rewrite run_static_eq, Hl, Hb. reflexivity. Qed.

End StaticFacts.

(** C2. In static mode, while the lock is locked, a call compiles nothing
    and leaves the cache as it is.  When the key it derives is absent from
    the cache, the call fails; for a keyword-only call the failure is the
    [KeyError] of the lookup, raised after the missing key and the list of
    all cached keys have been printed. *)
Theorem static_locked_is_pure_lookup (T : Toolchain) (self : JitCache)
  (r : nat) (args : list pyval) (kwargs : kwargs_t) (w : World) :
  dynamic_mode self = false ->
  cache_lock self = Some r ->
  is_locked (lock_store w r) = true ->
  let res := fst (JitCache_run T self args kwargs w) in
  let w' := snd (JitCache_run T self args kwargs w) in
  compile_count w' = compile_count w /\
  kernel_cache w' = kernel_cache w /\
  forall key,
    cache_index_func T self kwargs = Ok key ->
    dict_get (kernel_cache w) key = None ->
    is_ok res = false /\
    (args = [] -> pre_hook_ok kwargs = true ->
     res = Raise (KeyError key) /\
     trace w' =
       EPrint (PrintException (KeyError key))
       :: EPrint (PrintKeyNotInCache key (dict_keys (kernel_cache w)))
       :: trace w).
Proof.
  intros Hd Hl Hb res w'. subst res w'.
  unfold JitCache_run. rewrite Hd.
  rewrite (run_static_locked T self r args kwargs w Hl Hb).
  destruct (fst (check_call_shape args kwargs w)) as [[]|e] eqn:Hs.
  - pose proof (static_lookup_frame T self args kwargs w) as Hf.
    split; [now apply not_compile_count|].
    split; [apply Hf|].
    intros key Hk Hg. unfold static_lookup_and_call. rewrite Hk, Hg.
    split; [reflexivity|]. intros _ _. split; reflexivity.
  - cbn [fst snd]. split_and!; auto.
    intros key Hk Hg. split; [reflexivity|].
    intros -> Hp. rewrite check_call_shape_ok in Hs by assumption.
    discriminate Hs.
Qed.

Lemma static_locked_is_pure_lookup_witness :
  fst (JitCache_run Demo.toolchain (Demo.engine ["A"] (Some 0%nat) false) []
         (Demo.call_kwargs (VInt 3) (VInt 0))
         (snd (CacheLock_lock 0 initial_world)))
  = Raise (KeyError "3").
Proof.
  destruct (static_locked_is_pure_lookup Demo.toolchain
              (Demo.engine ["A"] (Some 0%nat) false) 0%nat []
              (Demo.call_kwargs (VInt 3) (VInt 0))
              (snd (CacheLock_lock 0 initial_world)))
    as (_ & _ & H).
  - reflexivity.
  - reflexivity.
  - reflexivity.
  - destruct (H "3") as (_ & H'); [reflexivity|reflexivity|].
    destruct H' as (Hr & _); [reflexivity|reflexivity|exact Hr].
Defined.

(** ** Selector values of another type *)


Lemma selector_values_bound keys kwargs :
  (forall k, In k keys -> exists u, kwargs !! k = Some u) ->
  exists vs, selector_values keys kwargs = Ok vs.
Proof.
  induction keys as [|key keys IH]; intros Hb; cbn [selector_values].
  - eauto.
  - destruct (Hb key) as (u & Hu); [now left|].
    unfold getitem. rewrite Hu.
    destruct IH as (vs & ->); [intros k Hk; apply Hb; now right|]. eauto.
Qed.

Lemma cache_index_func_bound T self kwargs :
  (forall k, In k (check_keys self) -> exists u, kwargs !! k = Some u) ->
  exists key, cache_index_func T self kwargs = Ok key.
Proof.
  intros Hb. rewrite cache_index_func_spec. unfold spec_cache_key.
  destruct (check_keys self) as [|k0 keys] eqn:E; [eauto|].
  destruct (selector_values_bound (k0 :: keys) kwargs Hb) as (vs & ->). eauto.
Qed.

(** C4, as amended.  A call in which some selector key is bound to a value
    that is not an [int], a [bool] or a [float] compiles nothing and leaves
    the cache as it is, in either mode.  When the call reaches the
    compilation path (static mode with the lock unlocked, dynamic mode on a
    miss), it fails before any compilation, and a keyword-only call with all
    selector keys bound fails with [AssertionError]. *)
Theorem bad_selector_type_never_compiles (T : Toolchain) (self : JitCache)
  (args : list pyval) (kwargs : kwargs_t) (key : string) (v : pyval)
  (w : World) :
  In key (check_keys self) ->
  kwargs !! key = Some v ->
  is_index_type v = false ->
  let res := fst (JitCache_run T self args kwargs w) in
  let w' := snd (JitCache_run T self args kwargs w) in
  compile_count w' = compile_count w /\
  kernel_cache w' = kernel_cache w /\
  (reaches_compile_path T self kwargs w ->
   is_ok res = false /\
   (args = [] -> pre_hook_ok kwargs = true ->
    (forall k, In k (check_keys self) -> exists u, kwargs !! k = Some u) ->
    res = Raise AssertionError)).
Proof.
  intros Hin Hv Ht res w'. subst res w'.
  unfold JitCache_run, reaches_compile_path.
  destruct (dynamic_mode self).
  - rewrite run_dynamic_eq.
    destruct (fst (check_call_shape args kwargs w)) as [[]|e] eqn:Hs.
    + destruct (cache_index_func T self kwargs) as [k|e] eqn:Hk.
      * destruct (dict_get (kernel_cache w) k) as [pk|] eqn:Hg.
        -- split; [apply call_compile_count|].
           split; [apply call_cache|].
           intros Hmiss. specialize (Hmiss k eq_refl). congruence.
        -- cbv zeta. set (w0 := add_event _ w).
           destruct (check_key_types_bad _ kwargs key v w0 Hin Hv Ht)
             as (e & He & Hall).
           rewrite He. cbn [fst snd]. split_and!; auto.
           intros _. split; [reflexivity|].
           intros _ _ Hb. now rewrite (Hall Hb).
      * cbn [fst snd]. split_and!; auto. intros _. split; [reflexivity|].
        intros _ _ Hb.
        destruct (cache_index_func_bound T self kwargs Hb) as (k & Hk').
        congruence.
    + cbn [fst snd]. split_and!; auto. intros _. split; [reflexivity|].
      intros -> Hp _. rewrite check_call_shape_ok in Hs by assumption.
      discriminate Hs.
  - rewrite run_static_eq.
    destruct (fst (check_call_shape args kwargs w)) as [[]|e] eqn:Hs.
    + destruct (cache_lock self) as [r|] eqn:Hl.
      * destruct (is_locked (lock_store w r)) eqn:Hb.
        -- pose proof (static_lookup_frame T self args kwargs w) as Hf.
           split; [now apply not_compile_count|].
           split; [apply Hf|].
           intros (r' & Hr' & Hu). congruence.
        -- destruct (check_key_types_bad _ kwargs key v w Hin Hv Ht)
             as (e & He & Hall).
           rewrite He. cbn [fst snd]. split_and!; auto.
           intros _. split; [reflexivity|].
           intros _ _ Hbound. now rewrite (Hall Hbound).
      * cbn [fst snd]. split_and!; auto.
        intros (r' & Hr' & _). discriminate Hr'.
    + cbn [fst snd]. split_and!; auto. intros _. split; [reflexivity|].
      intros -> Hp _. rewrite check_call_shape_ok in Hs by assumption.
      discriminate Hs.
Qed.

Lemma bad_selector_type_never_compiles_witness :
  fst (JitCache_run Demo.toolchain (Demo.engine ["A"] (Some 0%nat) false) []
         (Demo.call_kwargs (VStr "big") (VInt 0))
         (snd (CacheLock_new "global" initial_world)))
  = Raise AssertionError.
Proof.
  destruct (bad_selector_type_never_compiles Demo.toolchain
              (Demo.engine ["A"] (Some 0%nat) false) []
              (Demo.call_kwargs (VStr "big") (VInt 0)) "A" (VStr "big")
              (snd (CacheLock_new "global" initial_world)))
    as (_ & _ & H).
  - now left.
  - reflexivity.
  - reflexivity.
  - destruct H as (_ & H).
    + exists 0%nat. split; reflexivity.
    + apply H; [reflexivity|reflexivity|].
      intros k [<-|[]]. exists (VStr "big"). reflexivity.
Defined.

(** C4 as stated fails: in dynamic mode, after a call with [A = 1] has
    cached the key ["1"], a call with the string [A = "1"] is not of an
    allowed type and yet does not fail; it hits the cache and launches. *)
Lemma dynamic_hit_skips_type_check :
  let self := Demo.engine ["A"] None false in
  let first := Demo.call_kwargs (VInt 1) (VInt 0) in
  let second := Demo.call_kwargs (VStr "1") (VInt 0) in
  let w1 := snd (JitCache_run Demo.toolchain self [] first initial_world) in
  ~ (second !! "A" = Some (VStr "1") ->
     is_index_type (VStr "1") = false ->
     is_ok (fst (JitCache_run Demo.toolchain self [] second w1)) = false).
Proof.
  intros self first second w1 H.
  assert (Hc : is_ok (fst (JitCache_run Demo.toolchain self [] second w1))
               = false).
  { apply H; reflexivity. }
  vm_compute in Hc. discriminate Hc.
Qed.

(** ** A selector key that names a runtime parameter *)

Lemma check_keys_clash_iff (T : Toolchain) (self : JitCache) :
  check_keys_clash self (non_const_arg_names_of (fn_params T)) = true <->
  exists p, In p (fn_params T) /\ is_constexpr p = false /\
            is_const p = false /\ In (p_name p) (check_keys self).
Proof.
  unfold check_keys_clash, non_const_arg_names_of.
  rewrite existsb_exists. split.
  - intros (x & Hx & Hin).
    apply in_map_iff in Hx as (p & <- & Hp).
    apply filter_In in Hp as (Hp & Hnc).
    apply negb_true_iff, orb_false_iff in Hnc as (H1 & H2).
    apply existsb_exists in Hin as (k & Hk & He).
    apply String.eqb_eq in He. subst k.
    exists p. auto.
  - intros (p & Hp & H1 & H2 & Hin).
    exists (p_name p). split.
    + apply in_map_iff. exists p. split; [reflexivity|].
      apply filter_In. split; [exact Hp|]. now rewrite H1, H2.
    + apply existsb_exists. exists (p_name p). split; [exact Hin|].
      apply String.eqb_refl.
Qed.

Section ClashFacts.

Variable T : Toolchain.
Variable self : JitCache.
Hypothesis Hclash :
  check_keys_clash self (non_const_arg_names_of (fn_params T)) = true.

Lemma clash_call_invariant args kwargs w :
  kernel_cache w = [] ->
  kernel_cache (snd (JitCache_run T self args kwargs w)) = [] /\
  launch_count (snd (JitCache_run T self args kwargs w)) = launch_count w.
Proof using Hclash.
  intros He. unfold JitCache_run. destruct (dynamic_mode self).
  - rewrite run_dynamic_eq.
    destruct (fst (check_call_shape args kwargs w)); [|now split].
    destruct (cache_index_func T self kwargs) as [key|e]; [|now split].
    rewrite He. cbn [dict_get dict_keys map]. cbv zeta.
    set (w0 := add_event _ w).
    destruct (fst (check_key_types (check_keys self) kwargs w0));
      [|now split].
    rewrite (prepare_clash T self args kwargs w0 Hclash).
    destruct (fn_run T args _); now split.
  - rewrite run_static_eq.
    destruct (fst (check_call_shape args kwargs w)); [|now split].
    destruct (cache_lock self) as [r|]; [|now split].
    destruct (is_locked (lock_store w r)).
    + unfold static_lookup_and_call.
      destruct (cache_index_func T self kwargs) as [key|e]; [|now split].
      rewrite He. cbn [dict_get]. now split.
    + destruct (fst (check_key_types (check_keys self) kwargs w));
        [|now split].
      rewrite (prepare_clash T self args kwargs w Hclash).
      destruct (fn_run T args _); now split.
Qed.

Lemma clash_actions_invariant acts : forall w,
  kernel_cache w = [] ->
  kernel_cache (run_actions T self acts w) = [] /\
  launch_count (run_actions T self acts w) = launch_count w.
Proof using Hclash.
  induction acts as [|a acts IH]; intros w He; [now split|].
  cbn [run_actions fold_left].
  assert (Ha : kernel_cache (run_action T self a w) = [] /\
               launch_count (run_action T self a w) = launch_count w).
  { destruct a as [args kwargs|r|r]; cbn [run_action].
    - now apply clash_call_invariant.
    - now split.
    - now split. }
  destruct Ha as (Ha1 & Ha2).
  destruct (IH _ Ha1) as (H1 & H2). split; [exact H1|].
  unfold run_actions in H2. now rewrite H2.
Qed.

End ClashFacts.

(** C5. When a selector key is also the name of a parameter that is
    neither [constexpr] nor [const], the compilation step never returns a
    prepared kernel: once the toolchain has compiled, it raises the
    [RuntimeError] about [check_keys], having loaded and launched nothing.
    Hence, from an empty cache, no sequence of calls and lock operations
    ever caches a prepared kernel or reaches a launch. *)
Theorem selector_on_runtime_parameter_never_launches (T : Toolchain)
  (self : JitCache) (p : KernelParam) :
  In p (fn_params T) ->
  is_constexpr p = false -> is_const p = false ->
  In (p_name p) (check_keys self) ->
  (forall args kwargs w,
     let res := fst (JitCache_get_prepared_kernel T self args kwargs w) in
     let w' := snd (JitCache_get_prepared_kernel T self args kwargs w) in
     is_ok res = false /\
     (is_ok (fn_run T args (<["warmup" := VBool true]> kwargs)) = true ->
      res = Raise (RuntimeError msg_check_keys)) /\
     trace w'
     = ECompile args (<["warmup" := VBool true]> kwargs) :: trace w /\
     kernel_cache w' = kernel_cache w)
  /\
  (forall acts w,
     kernel_cache w = [] ->
     kernel_cache (run_actions T self acts w) = [] /\
     launch_count (run_actions T self acts w) = launch_count w).
Proof.
  intros Hp H1 H2 Hin.
  assert (Hclash :
    check_keys_clash self (non_const_arg_names_of (fn_params T)) = true).
  { apply check_keys_clash_iff. eauto. }
  split.
  - intros args kwargs w res w'. subst res w'.
    rewrite (prepare_clash T self args kwargs w Hclash). cbn [fst snd].
    destruct (fn_run T args _); split_and!; auto; discriminate.
  - intros acts w. now apply clash_actions_invariant.
Qed.

Lemma selector_on_runtime_parameter_never_launches_witness :
  fst (JitCache_get_prepared_kernel Demo.toolchain
         (Demo.engine ["A"; "x"] None false) []
         (Demo.call_kwargs (VInt 1) (VInt 2)) initial_world)
  = Raise (RuntimeError msg_check_keys).
Proof.
  destruct (selector_on_runtime_parameter_never_launches Demo.toolchain
              (Demo.engine ["A"; "x"] None false)
              {| p_name := "x"; is_constexpr := false; is_const := false |})
    as (H & _).
  - now left.
  - reflexivity.
  - reflexivity.
  - right. now left.
  - destruct (H [] (Demo.call_kwargs (VInt 1) (VInt 2)) initial_world)
      as (_ & Hr & _).
    apply Hr. reflexivity.
Defined.

(** ** The resource check of [_init_handles] *)

Lemma init_handles_over_capacity (T : Toolchain) (k : CompiledKernel)
  (dev run_ : handle) (w : World) :
  launcher_cls T (src k) (metadata k) = Ok run_ ->
  (shared (metadata k) > max_shared_mem T dev)%Z ->
  PreparedKernel_init_handles T k dev w = (Raise (AttributeError "metadata"), w).
Proof.
  intros Hl Hgt. unfold PreparedKernel_init_handles. munfold. rewrite Hl.
  apply Z.gtb_gt in Hgt. rewrite Hgt. reflexivity.
Qed.

(** C6 fails on the code.  A kernel that needs 204800 bytes of shared
    memory on a device that offers 101376: [_init_handles] does not raise
    [OutOfResources]; building that exception reads [self.metadata], which a
    [PreparedKernel] does not have, and the call ends in [AttributeError].
    No binary is loaded. *)
Theorem over_capacity_raises_attribute_error :
  let kwargs := Demo.call_kwargs (VInt 200) (VInt 0) in
  let k := Demo.compile (<["warmup" := VBool true]> kwargs) in
  let self := Demo.engine ["A"] None false in
  shared (metadata k) = 204800%Z /\
  max_shared_mem Demo.toolchain (get_current_device Demo.toolchain)
  = 101376%Z /\
  PreparedKernel_init_handles Demo.toolchain k 0 initial_world
  = (Raise (AttributeError "metadata"), initial_world) /\
  fst (JitCache_run Demo.toolchain self [] kwargs initial_world)
  = Raise (AttributeError "metadata") /\
  count_events is_load
    (trace (snd (JitCache_run Demo.toolchain self [] kwargs initial_world)))
  = 0%nat.
Proof. vm_compute. repeat split. Qed.

(** ** The memoized launch grid *)

Section GridFacts.

Variable T : Toolchain.

Lemma mapM_lift_pure {A B} (f : A -> Outcome B) (l : list A) (w : World) :
  snd (mapM (fun a => lift (f a)) l w) = w.
Proof.
  induction l as [|a l IH]; cbn [mapM]; [reflexivity|].
  munfold. destruct (f a) as [b|e]; [|reflexivity].
  revert IH. unfold lift. destruct (mapM _ l w) as [[bs|e] w1]; cbn [snd];
    now intros ->.
Qed.


Lemma call_memoized pk g kwargs w :
  pk_cache_launch_grid pk = true ->
  concrete_grid pk = Some g ->
  PreparedKernel_call T pk [] kwargs w =
  match fst (mapM (fun arg_n => lift (getitem kwargs arg_n))
               (non_const_arg_names pk) w) with
  | Raise e => (Raise e, w)
  | Ok vals =>
      (launch_result T pk g vals, add_event (launch_event pk g vals) w)
  end.
Proof.
  intros Hc Hg. unfold PreparedKernel_call. rewrite Hc, Hg.
  cbn [length Nat.eqb py_assert].
  rewrite bind_run_ok with (a := tt) (w1 := w) by reflexivity.
  unfold bind at 1.
  pose proof (mapM_lift_pure (getitem kwargs) (non_const_arg_names pk) w) as Hp.
  destruct (mapM _ (non_const_arg_names pk) w) as [[vals|e] w1];
    cbn [snd] in Hp; subst w1; cbn [fst]; [|reflexivity].
  destruct g as [[g0 g1] g2]. reflexivity.
Qed.

Lemma is_load_not_grid_call w w' :
  extends is_load w w' ->
  count_events is_grid_call (trace w') = count_events is_grid_call (trace w).
Proof.
  apply extends_count. intros e H. now destruct e.
Qed.

Lemma init_handles_loads k dev :
  emits_only is_load (PreparedKernel_init_handles T k dev).
Proof. unfold PreparedKernel_init_handles. frame. Qed.

Lemma PreparedKernel_init_loads g grid clg k lm en ex nc key dev strm :
  emits_only is_load
    (PreparedKernel_init T g grid clg k lm en ex nc key dev strm).
Proof.
  unfold PreparedKernel_init. frame_with ltac:(apply init_handles_loads).
Qed.

Lemma lift_ok {A} (r : Outcome A) w a w' :
  lift r w = (Ok a, w') -> r = Ok a /\ w' = w.
Proof. unfold lift. intros H. injection H as -> ->. auto. Qed.

(** Compiling calls the grid object at most once. *)
Lemma prepare_grid_calls self args kwargs w pk w' :
  JitCache_get_prepared_kernel T self args kwargs w = (Ok pk, w') ->
  (count_events is_grid_call (trace w')
   <= S (count_events is_grid_call (trace w)))%nat.
Proof.
  unfold JitCache_get_prepared_kernel. intros H.
  apply bind_ok in H as ([] & w0 & Hw0 & H).
  apply bind_ok in H as (k & w1 & Hw1 & H).
  destruct (check_keys_clash self _); [discriminate H|].
  apply bind_ok in H as (vals & w2 & Hw2 & H).
  apply bind_ok in H as (g & w3 & Hw3 & H).
  apply bind_ok in H as (grid & w4 & Hgrid & H).
  apply bind_ok in H as (lm & w5 & Hw5 & H).
  apply bind_ok in H as (key & w6 & Hw6 & H).
  apply bind_ok in H as (pk' & w7 & Hinit & H).
  apply bind_ok in H as ([] & w8 & Hw8 & H).
  injection H as _ <-.
  apply lift_ok in Hw1 as (_ & ->), Hw2 as (_ & ->), Hw3 as (_ & ->),
    Hw5 as (_ & ->), Hw6 as (_ & ->).
  injection Hw0 as <-. injection Hw8 as <-.
  pose proof (PreparedKernel_init_loads g grid (cache_launch_grid self) k lm
                (launch_enter_hook T) (launch_exit_hook T)
                (non_const_arg_names_of (fn_params T)) key
                (get_current_device T)
                (get_current_stream T (get_current_device T)) w4) as Hf.
  rewrite Hinit in Hf. cbn [snd] in Hf.
  apply is_load_not_grid_call in Hf.
  cbn [trace]. rewrite count_events_cons. cbn [is_grid_call]. rewrite Hf.
  destruct g; cbn [callable py_call] in Hgrid;
    try (injection Hgrid as _ <-; cbn [trace];
         rewrite count_events_cons; cbn [is_grid_call]; lia).
  munfold_in Hgrid. cbn in Hgrid.
  destruct (call_grid T c _); [|discriminate Hgrid].
  injection Hgrid as _ <-. cbn [trace].
  rewrite !count_events_cons. cbn [is_grid_call]. lia.
Qed.

End GridFacts.

(** C8. With [cache_launch_grid] set, the prepared kernel a compilation
    returns holds the grid resolved during that compilation (the grid object
    was called at most once), padded with 1 to three dimensions.  Every
    later invocation of that prepared kernel, whatever the [grid] entry of
    its keyword arguments, calls no grid object; it either stops before the
    launch, or launches with the memoized grid. *)
Theorem static_grid_is_memoized (T : Toolchain) (self : JitCache)
  (args : list pyval) (kwargs : kwargs_t) (w w1 : World)
  (pk : PreparedKernel) :
  cache_launch_grid self = true ->
  JitCache_get_prepared_kernel T self args kwargs w = (Ok pk, w1) ->
  exists grid items g,
    prepare_time_grid T (<["warmup" := VBool true]> kwargs) = Ok grid /\
    seq_items grid = Some items /\
    grid3 items = Some g /\
    concrete_grid pk = Some g /\
    (count_events is_grid_call (trace w1)
     <= S (count_events is_grid_call (trace w)))%nat /\
    forall kwargs' w2,
      let res := fst (PreparedKernel_call T pk [] kwargs' w2) in
      let w3 := snd (PreparedKernel_call T pk [] kwargs' w2) in
      count_events is_grid_call (trace w3)
      = count_events is_grid_call (trace w2) /\
      ((is_ok res = false /\ trace w3 = trace w2) \/
       exists vals,
         res = launch_result T pk g vals /\
         trace w3 = launch_event pk g vals :: trace w2).
Proof.
  intros Hs Hprep.
  pose proof (prepare_grid_calls T _ _ _ _ _ _ Hprep) as Hcalls.
  apply prepare_ok in Hprep as (_ & Hclg & _ & _ & Hgrid).
  destruct (Hgrid Hs) as (grid & items & Hg & Hi & Hc & Hne).
  destruct (grid3 items) as [g|] eqn:Hg3.
  2: { destruct items as [|? [|? [|? ?]]]; [congruence|discriminate..]. }
  exists grid, items, g. split_and!; auto.
  intros kwargs' w2. cbv zeta.
  rewrite (call_memoized T pk g kwargs' w2) by congruence.
  destruct (fst (mapM _ (non_const_arg_names pk) w2)) as [vals|e];
    cbn [fst snd].
  - split.
    + unfold add_event, emit. cbn [snd trace]. rewrite count_events_cons.
      destruct g as [[g0 g1] g2]. reflexivity.
    + right. exists vals. split; reflexivity.
  - split; [reflexivity|]. left. split; reflexivity.
Qed.

Lemma static_grid_is_memoized_witness :
  exists vals,
    trace (snd (JitCache_run Demo.toolchain
                  (Demo.engine ["A"] None true) []
                  (Demo.call_kwargs_grid_fn (VInt 1) (VInt 0) (VInt 256))
                  (snd (JitCache_run Demo.toolchain
                          (Demo.engine ["A"] None true) []
                          (Demo.call_kwargs_grid_fn (VInt 1) (VInt 0)
                             (VInt 128))
                          initial_world))))
    = ELaunch 5 (VInt 128) (VInt 1) (VInt 1) 1 1100 9 2 3 4 vals
      :: trace (snd (JitCache_run Demo.toolchain
                       (Demo.engine ["A"] None true) []
                       (Demo.call_kwargs_grid_fn (VInt 1) (VInt 0) (VInt 128))
                       initial_world)).
Proof.
  destruct (JitCache_get_prepared_kernel Demo.toolchain
              (Demo.engine ["A"] None true) []
              (Demo.call_kwargs_grid_fn (VInt 1) (VInt 0) (VInt 128))
              (add_event (ELog (LogMissCompiling "1" [])) initial_world))
    as [r wc] eqn:Hprep.
  assert (Hr : r = fst (JitCache_get_prepared_kernel Demo.toolchain
              (Demo.engine ["A"] None true) []
              (Demo.call_kwargs_grid_fn (VInt 1) (VInt 0) (VInt 128))
              (add_event (ELog (LogMissCompiling "1" [])) initial_world)))
    by now rewrite Hprep.
  vm_compute in Hr. subst r.
  destruct (static_grid_is_memoized Demo.toolchain
              (Demo.engine ["A"] None true) []
              (Demo.call_kwargs_grid_fn (VInt 1) (VInt 0) (VInt 128))
              _ _ _ eq_refl Hprep)
    as (grid & items & g & Hg & Hi & Hg3 & _ & _ & Hcall).
  vm_compute in Hg. injection Hg as <-.
  vm_compute in Hi. injection Hi as <-.
  vm_compute in Hg3. injection Hg3 as <-.
  destruct (Hcall (Demo.call_kwargs_grid_fn (VInt 1) (VInt 0) (VInt 256))
              (snd (JitCache_run Demo.toolchain
                      (Demo.engine ["A"] None true) []
                      (Demo.call_kwargs_grid_fn (VInt 1) (VInt 0) (VInt 128))
                      initial_world)))
    as (_ & [(Hbad & _)|(vals & _ & Htr)]).
  - vm_compute in Hbad. discriminate Hbad.
  - exists vals. vm_compute in Htr. vm_compute. exact Htr.
Defined.

(** ** Static mode, unlocked *)

Section WarmupFacts.

Variable T : Toolchain.

Lemma run_static_unlocked self r kwargs w :
  cache_lock self = Some r -> is_locked (lock_store w r) = false ->
  pre_hook_ok kwargs = true ->
  selector_types_ok (check_keys self) kwargs ->
  JitCache_run_static T self [] kwargs w =
  match JitCache_get_prepared_kernel T self [] kwargs w with
  | (Raise e, w1) => (Raise e, w1)
  | (Ok pk, w1) =>
      let w2 :=
        if dict_mem (get_key pk) (kernel_cache w1)
        then add_event (ELog LogOverrideWarning) w1 else w1 in
      static_lookup_and_call T self [] kwargs
        (set_cache (dict_set (kernel_cache w2) (get_key pk) pk) w2)
  end.
Proof.
  intros Hl Hb Hp Ht.
  rewrite run_static_eq, check_call_shape_ok, Hl, Hb by assumption.
  cbn [fst]. now rewrite check_key_types_ok by assumption.
Qed.

Lemma run_lock_store self args kwargs w :
  lock_store (snd (JitCache_run T self args kwargs w)) = lock_store w.
Proof.
  unfold JitCache_run. destruct (dynamic_mode self).
  - rewrite run_dynamic_eq.
    destruct (fst (check_call_shape args kwargs w)); [|reflexivity].
    destruct (cache_index_func T self kwargs) as [key|e]; [|reflexivity].
    destruct (dict_get (kernel_cache w) key) as [pk|].
    + apply (PreparedKernel_call_frame T pk args kwargs w).
    + cbv zeta. set (w0 := add_event _ w).
      destruct (fst (check_key_types (check_keys self) kwargs w0));
        [|reflexivity].
      destruct (prepare_frame T self args kwargs w0) as (_ & Hl & _).
      destruct (JitCache_get_prepared_kernel T self args kwargs w0)
        as [[pk|e] w1]; cbn [snd] in *; [|exact Hl].
      destruct (PreparedKernel_call_frame T pk args kwargs
                  (set_cache (dict_set (kernel_cache w1) (get_key pk) pk) w1))
        as (_ & Hl' & _).
      rewrite Hl'. exact Hl.
  - rewrite run_static_eq.
    destruct (fst (check_call_shape args kwargs w)); [|reflexivity].
    destruct (cache_lock self) as [r|]; [|reflexivity].
    destruct (is_locked (lock_store w r)).
    + apply (static_lookup_frame T self args kwargs w).
    + destruct (fst (check_key_types (check_keys self) kwargs w));
        [|reflexivity].
      destruct (prepare_frame T self args kwargs w) as (_ & Hl & _).
      destruct (JitCache_get_prepared_kernel T self args kwargs w)
        as [[pk|e] w1]; cbn [snd] in *; [|exact Hl].
      cbv zeta.
      match goal with
      | |- lock_store (snd (static_lookup_and_call T self args kwargs ?w2)) = _ =>
          destruct (static_lookup_frame T self args kwargs w2) as (_ & Hl' & _);
          rewrite Hl'
      end.
      destruct (dict_mem (get_key pk) (kernel_cache w1)); exact Hl.
Qed.

(** The lock stays unlocked as long as nobody calls its [lock()]. *)
Lemma run_actions_stay_unlocked self r acts : forall w,
  Forall (fun a => a <> ALock r) acts ->
  is_locked (lock_store w r) = false ->
  is_locked (lock_store (run_actions T self acts w) r) = false.
Proof.
  induction acts as [|a acts IH]; intros w Hacts Hu; [exact Hu|].
  cbn [run_actions fold_left]. inversion Hacts as [|? ? Ha Hrest]; subst.
  apply IH; [exact Hrest|].
  destruct a as [args kwargs|r'|r']; cbn [run_action].
  - now rewrite run_lock_store.
  - cbn. unfold store_set.
    destruct (Nat.eqb_spec r r') as [->|Hne]; [congruence|].
    destruct (Nat.eqb_spec r r'); [contradiction|exact Hu].
  - cbn. unfold store_set.
    destruct (Nat.eqb_spec r r') as [->|Hne]; [reflexivity|].
    destruct (Nat.eqb_spec r r'); [contradiction|exact Hu].
Qed.

(** While the lock is unlocked, a well-formed call compiles once and caches
    the prepared kernel it obtained. *)
Lemma static_unlocked_compiles_and_inserts self r kwargs w :
  cache_lock self = Some r -> is_locked (lock_store w r) = false ->
  pre_hook_ok kwargs = true ->
  selector_types_ok (check_keys self) kwargs ->
  compile_count (snd (JitCache_run_static T self [] kwargs w))
  = S (compile_count w) /\
  forall pk wc,
    JitCache_get_prepared_kernel T self [] kwargs w = (Ok pk, wc) ->
    dict_get (kernel_cache (snd (JitCache_run_static T self [] kwargs w)))
      (get_key pk) = Some pk.
Proof.
  intros Hl Hb Hp Ht.
  rewrite (run_static_unlocked self r kwargs w Hl Hb Hp Ht).
  pose proof (prepare_compile_count T self [] kwargs w) as Hn.
  destruct (JitCache_get_prepared_kernel T self [] kwargs w)
    as [[pk|e] w1]; cbn [snd] in Hn.
  - cbv zeta.
    match goal with
    | |- context [static_lookup_and_call T self [] kwargs ?w2] =>
        pose proof (static_lookup_frame T self [] kwargs w2) as Hf;
        set (w3 := w2) in *
    end.
    split.
    + rewrite (not_compile_count _ _ Hf). subst w3.
      unfold compile_count, set_cache, put_cache. cbn [snd trace].
      destruct (dict_mem (get_key pk) (kernel_cache w1)); exact Hn.
    + intros pk' wc Heq. injection Heq as <- <-.
      destruct Hf as (Hc & _). rewrite Hc. subst w3.
      cbn [set_cache put_cache snd kernel_cache]. apply dict_get_set_eq.
  - split; [exact Hn|]. intros pk wc Heq. discriminate Heq.
Qed.

End WarmupFacts.

(** C7. In static mode with the lock unlocked, a well-formed call whose
    derived key already has a cached prepared kernel, and whose compilation
    succeeds, is not refused: the advisory log message is emitted, the new
    prepared kernel replaces the old one under that key (the other entries
    and the order of the keys are kept), and the call goes on to invoke the
    new prepared kernel. *)
Theorem static_unlocked_overwrites (T : Toolchain) (self : JitCache)
  (r : nat) (kwargs : kwargs_t) (key : string) (old pk : PreparedKernel)
  (w w1 : World) :
  dynamic_mode self = false ->
  cache_lock self = Some r ->
  is_locked (lock_store w r) = false ->
  ~ In "warmup" (check_keys self) ->
  pre_hook_ok kwargs = true ->
  selector_types_ok (check_keys self) kwargs ->
  cache_index_func T self kwargs = Ok key ->
  dict_get (kernel_cache w) key = Some old ->
  JitCache_get_prepared_kernel T self [] kwargs w = (Ok pk, w1) ->
  let w2 :=
    set_cache (dict_set (kernel_cache w) key pk)
      (add_event (ELog LogOverrideWarning) w1) in
  JitCache_run T self [] kwargs w = PreparedKernel_call T pk [] kwargs w2 /\
  dict_get (kernel_cache w2) key = Some pk /\
  dict_keys (kernel_cache w2) = dict_keys (kernel_cache w) /\
  (forall key', key <> key' ->
     dict_get (kernel_cache w2) key' = dict_get (kernel_cache w) key') /\
  trace w2 = ELog LogOverrideWarning :: trace w1.
Proof.
  intros Hd Hl Hb Hw Hp Ht Hk Hold Hprep w2.
  pose proof (prepare_ok_key T _ _ _ _ _ _ _ Hw Hk Hprep) as Hkey.
  pose proof (prepare_cache T self [] kwargs w) as Hc.
  rewrite Hprep in Hc. cbn [snd] in Hc.
  assert (Hmem : dict_mem key (kernel_cache w) = true).
  { apply dict_mem_get. eauto. }
  split_and!.
  - unfold JitCache_run. rewrite Hd.
    rewrite (run_static_unlocked T self r kwargs w Hl Hb Hp Ht), Hprep.
    rewrite Hkey, Hc, Hmem. cbv zeta.
    change (kernel_cache (add_event (ELog LogOverrideWarning) w1))
      with (kernel_cache w1).
    rewrite Hc. fold w2.
    unfold static_lookup_and_call. rewrite Hk.
    subst w2. cbn [set_cache put_cache snd kernel_cache].
    now rewrite dict_get_set_eq.
  - apply dict_get_set_eq.
  - now apply dict_keys_set_present.
  - intros key' Hne. now apply dict_get_set_ne.
  - reflexivity.
Qed.

Lemma static_unlocked_overwrites_witness :
  let self := Demo.engine ["A"] (Some 0%nat) false in
  let kwargs := Demo.call_kwargs (VInt 1) (VInt 0) in
  let w := snd (JitCache_run Demo.toolchain self [] kwargs initial_world) in
  exists pk w1,
    JitCache_get_prepared_kernel Demo.toolchain self [] kwargs w = (Ok pk, w1) /\
    JitCache_run Demo.toolchain self [] kwargs w
    = PreparedKernel_call Demo.toolchain pk [] kwargs
        (set_cache (dict_set (kernel_cache w) "1" pk)
           (add_event (ELog LogOverrideWarning) w1)).
Proof.
  intros self kwargs w.
  destruct (JitCache_get_prepared_kernel Demo.toolchain self [] kwargs w)
    as [[pk|e] w1] eqn:Hprep.
  2: { exfalso.
       assert (He : fst (JitCache_get_prepared_kernel Demo.toolchain self []
                           kwargs w) = Raise e) by now rewrite Hprep.
       vm_compute in He. discriminate He. }
  destruct (dict_get (kernel_cache w) "1") as [old|] eqn:Hold.
  2: { exfalso. vm_compute in Hold. discriminate Hold. }
  exists pk, w1. split; [reflexivity|].
  apply (static_unlocked_overwrites Demo.toolchain self 0%nat kwargs "1"
           old pk w w1).
  - reflexivity.
  - reflexivity.
  - reflexivity.
  - cbn. intros [H|[]]. discriminate H.
  - reflexivity.
  - constructor; [|constructor]. exists (VInt 1). split; reflexivity.
  - reflexivity.
  - exact Hold.
  - exact Hprep.
Defined.

(** ** A fresh lock *)

(** C10. A lock that has just been constructed is unlocked, and stays so
    until its [lock()] is called.  So a static-mode engine that shares it is
    in its warmup phase: after any calls and lock operations other than that
    [lock()], every well-formed call compiles once and caches the prepared
    kernel the compilation returned. *)
Theorem fresh_lock_starts_warmup (T : Toolchain) (lock_id : string)
  (w0 : World) :
  let r := next_lock w0 in
  let w := snd (CacheLock_new lock_id w0) in
  fst (CacheLock_new lock_id w0) = Ok r /\
  is_locked (CacheLock_init lock_id) = false /\
  is_locked (lock_store w r) = false /\
  is_locked (lock_store (snd (CacheLock_lock r w)) r) = true /\
  forall self acts,
    dynamic_mode self = false ->
    cache_lock self = Some r ->
    Forall (fun a => a <> ALock r) acts ->
    let w' := run_actions T self acts w in
    is_locked (lock_store w' r) = false /\
    forall kwargs,
      pre_hook_ok kwargs = true ->
      selector_types_ok (check_keys self) kwargs ->
      compile_count (snd (JitCache_run T self [] kwargs w'))
      = S (compile_count w') /\
      forall pk wc,
        JitCache_get_prepared_kernel T self [] kwargs w' = (Ok pk, wc) ->
        dict_get (kernel_cache (snd (JitCache_run T self [] kwargs w')))
          (get_key pk) = Some pk.
Proof.
  intros r w.
  assert (Hfresh : is_locked (lock_store w r) = false).
  { subst w r. cbn. unfold store_set. now rewrite Nat.eqb_refl. }
  split_and!; auto.
  - subst w r. cbn. unfold store_set. now rewrite Nat.eqb_refl.
  - intros self acts Hd Hl Hacts w'.
    assert (Hu : is_locked (lock_store w' r) = false)
      by now apply run_actions_stay_unlocked.
    split; [exact Hu|].
    intros kwargs Hp Ht. unfold JitCache_run. rewrite Hd.
    now apply static_unlocked_compiles_and_inserts with (r := r).
Qed.

Lemma fresh_lock_starts_warmup_witness :
  let self := Demo.engine ["A"] (Some 0%nat) false in
  let w := snd (CacheLock_new "global" initial_world) in
  compile_count
    (snd (JitCache_run Demo.toolchain self []
            (Demo.call_kwargs (VInt 1) (VInt 0))
            (run_actions Demo.toolchain self
               [ACall [] (Demo.call_kwargs (VInt 1) (VInt 0)); AUnlock 0%nat]
               w)))
  = 2%nat.
Proof.
  intros self w.
  destruct (fresh_lock_starts_warmup Demo.toolchain "global" initial_world)
    as (_ & _ & _ & _ & H).
  destruct (H self
              [ACall [] (Demo.call_kwargs (VInt 1) (VInt 0)); AUnlock 0%nat])
    as (_ & Hcall).
  - reflexivity.
  - reflexivity.
  - repeat constructor; discriminate.
  - destruct (Hcall (Demo.call_kwargs (VInt 1) (VInt 0))) as (Hn & _).
    + reflexivity.
    + constructor; [|constructor]. exists (VInt 1). split; reflexivity.
    + etransitivity; [exact Hn|]. vm_compute. reflexivity.
Defined.

(** ** Construction *)

(** The decorator returns an engine with an empty cache, in dynamic mode
    exactly when it is given no lock. *)
Lemma jitcache_constructs (keys fn_arg_names : list string)
  (lock : option nat) (g : bool) (w : World) :
  exists self,
    jitcache keys lock g fn_arg_names w = (Ok self, set_cache [] w) /\
    check_keys self = keys /\ cache_lock self = lock /\
    cache_launch_grid self = g /\
    (dynamic_mode self = true <-> lock = None).
Proof.
  eexists. split; [reflexivity|]. cbn. split_and!; auto.
  destruct lock; split; congruence.
Qed.

Lemma jitcache_demo_engine (keys : list string) (lock : option nat)
  (g : bool) (w : World) :
  fst (jitcache keys lock g ["x"; "y"; "A"; "B"] w)
  = Ok (Demo.engine keys lock g).
Proof. reflexivity. Qed.

(** * Further properties *)

(** ** How a call changes the cache *)

Section CacheStep.

Variable T : Toolchain.

(** A call changes the cache at most by storing a freshly compiled kernel
    under that kernel's own key. *)
Lemma run_cache_step self args kwargs w :
  kernel_cache (snd (JitCache_run T self args kwargs w)) = kernel_cache w \/
  exists pk w0 w1,
    JitCache_get_prepared_kernel T self args kwargs w0 = (Ok pk, w1) /\
    kernel_cache (snd (JitCache_run T self args kwargs w))
    = dict_set (kernel_cache w) (get_key pk) pk.
Proof.
  unfold JitCache_run. destruct (dynamic_mode self).
  - rewrite run_dynamic_eq.
    destruct (fst (check_call_shape args kwargs w)); [|now left].
    destruct (cache_index_func T self kwargs) as [key|e]; [|now left].
    destruct (dict_get (kernel_cache w) key) as [pk|].
    + left. apply call_cache.
    + cbv zeta. set (w0 := add_event _ w).
      destruct (fst (check_key_types (check_keys self) kwargs w0));
        [|now left].
      pose proof (prepare_cache T self args kwargs w0) as Hc.
      destruct (JitCache_get_prepared_kernel T self args kwargs w0)
        as [[pk|e] w1] eqn:Hp; cbn [snd] in Hc.
      * right. exists pk, w0, w1. split; [exact Hp|].
        rewrite call_cache. cbn [set_cache put_cache snd kernel_cache].
        now rewrite Hc.
      * left. exact Hc.
  - rewrite run_static_eq.
    destruct (fst (check_call_shape args kwargs w)); [|now left].
    destruct (cache_lock self) as [r|]; [|now left].
    destruct (is_locked (lock_store w r)).
    + left. apply (static_lookup_frame T self args kwargs w).
    + destruct (fst (check_key_types (check_keys self) kwargs w));
        [|now left].
      pose proof (prepare_cache T self args kwargs w) as Hc.
      destruct (JitCache_get_prepared_kernel T self args kwargs w)
        as [[pk|e] w1] eqn:Hp; cbn [snd] in Hc.
      * right. exists pk, w, w1. split; [exact Hp|]. cbv zeta.
        match goal with
        | |- kernel_cache (snd (static_lookup_and_call T self args kwargs ?w2))
             = _ =>
            destruct (static_lookup_frame T self args kwargs w2) as (Hf & _);
            rewrite Hf
        end.
        cbn [set_cache put_cache snd kernel_cache].
        destruct (dict_mem (get_key pk) (kernel_cache w1));
          cbn [add_event emit snd kernel_cache]; now rewrite Hc.
      * left. exact Hc.
Qed.

Lemma run_action_cache_step self a w :
  kernel_cache (run_action T self a w) = kernel_cache w \/
  exists pk args kwargs w0 w1,
    JitCache_get_prepared_kernel T self args kwargs w0 = (Ok pk, w1) /\
    kernel_cache (run_action T self a w)
    = dict_set (kernel_cache w) (get_key pk) pk.
Proof.
  destruct a as [args kwargs|r|r]; cbn [run_action]; [|now left..].
  destruct (run_cache_step self args kwargs w)
    as [H|(pk & w0 & w1 & Hp & H)]; [now left|].
  right. exists pk, args, kwargs, w0, w1. auto.
Qed.

End CacheStep.

Lemma dict_keys_set_grows {V} (d : pydict V) (k : string) (v : V) :
  exists suffix, dict_keys (dict_set d k v) = dict_keys d ++ suffix.
Proof.
  destruct (dict_mem k d) eqn:E.
  - exists []. rewrite app_nil_r. now apply dict_keys_set_present.
  - exists [k]. now apply dict_keys_set_absent.
Qed.

Lemma dict_mem_keys {V} (d : pydict V) (k : string) :
  dict_mem k d = true <-> In k (dict_keys d).
Proof.
  unfold dict_mem, dict_keys. induction d as [|[k0 v0] d IH]; cbn.
  - split; [discriminate|contradiction].
  - destruct (String.eqb_spec k0 k) as [->|Hne].
    + split; auto.
    + rewrite IH. split; [now right|]. intros [H|H]; [contradiction|exact H].
Qed.

Lemma dict_set_Forall {V} (P : string * V -> Prop) (d : pydict V) k v :
  Forall P d -> P (k, v) -> Forall P (dict_set d k v).
Proof.
  intros Hd Hkv. induction Hd as [|[k0 v0] d H0 Hd IH]; cbn.
  - constructor; auto.
  - destruct (String.eqb_spec k0 k) as [->|Hne]; constructor; auto.
Qed.

Lemma dict_set_NoDup {V} (d : pydict V) k v :
  NoDup (dict_keys d) -> NoDup (dict_keys (dict_set d k v)).
Proof.
  intros Hd. destruct (dict_mem k d) eqn:E.
  - now rewrite dict_keys_set_present.
  - rewrite dict_keys_set_absent by assumption.
    apply NoDup_app. split_and!; auto.
    + intros x Hx Hk. apply list_elem_of_In in Hx, Hk.
      destruct Hk as [<-|[]].
      apply dict_mem_keys in Hx. congruence.
    + apply NoDup_singleton.
Qed.

(** X1.  No eviction.  Over any sequence of calls and lock operations, in
    either mode, the keys of the cache are never removed or reordered: the
    list of keys only grows at its end. *)
Theorem cache_keys_only_grow (T : Toolchain) (self : JitCache)
  (acts : list Action) (w : World) :
  exists suffix,
    dict_keys (kernel_cache (run_actions T self acts w))
    = dict_keys (kernel_cache w) ++ suffix.
Proof.
  revert w. induction acts as [|a acts IH]; intros w.
  - exists []. now rewrite app_nil_r.
  - cbn [run_actions fold_left].
    destruct (IH (run_action T self a w)) as (s2 & H2).
    unfold run_actions in H2. rewrite H2.
    destruct (run_action_cache_step T self a w)
      as [H|(pk & args & kwargs & w0 & w1 & _ & H)]; rewrite H.
    + eauto.
    + destruct (dict_keys_set_grows (kernel_cache w) (get_key pk) pk)
        as (s1 & ->).
      exists (s1 ++ s2). now rewrite app_assoc.
Qed.

(** X2.  The cache invariant.  Starting from a consistent cache (the empty
    one in particular), after any sequence of calls and lock operations the
    keys of the cache are pairwise distinct and every cached prepared kernel
    is stored under the key it reports, carries the engine's grid flag (with
    a memoized grid exactly when the flag is set) and the runtime parameter
    names of the kernel, none of which is a selector key. *)
Theorem cache_stays_consistent (T : Toolchain) (self : JitCache)
  (acts : list Action) (w : World) :
  cache_consistent T self (kernel_cache w) ->
  cache_consistent T self (kernel_cache (run_actions T self acts w)).
Proof.
  revert w. induction acts as [|a acts IH]; intros w Hw; [exact Hw|].
  cbn [run_actions fold_left]. apply IH.
  destruct (run_action_cache_step T self a w)
    as [H|(pk & args & kwargs & w0 & w1 & Hp & H)]; rewrite H; [exact Hw|].
  destruct Hw as (Hnd & Hall). split.
  - now apply dict_set_NoDup.
  - apply dict_set_Forall; [exact Hall|].
    pose proof Hp as Hp'.
    apply prepare_ok in Hp as (_ & Hflag & Hnc & Hclash & Hgrid).
    unfold entry_consistent. cbn [fst snd]. split_and!; auto.
    + split.
      * intros Hcg. destruct (cache_launch_grid self) eqn:E; [reflexivity|].
        exfalso. apply Hcg.
        unfold JitCache_get_prepared_kernel in Hp'.
        apply bind_ok in Hp' as ([] & ? & _ & Hp').
        apply bind_ok in Hp' as (? & ? & _ & Hp').
        rewrite Hclash in Hp'.
        apply bind_ok in Hp' as (? & ? & _ & Hp').
        apply bind_ok in Hp' as (? & ? & _ & Hp').
        apply bind_ok in Hp' as (? & ? & _ & Hp').
        apply bind_ok in Hp' as (? & ? & _ & Hp').
        apply bind_ok in Hp' as (? & ? & _ & Hp').
        apply bind_ok in Hp' as (pk' & ? & Hinit & Hp').
        apply bind_ok in Hp' as ([] & ? & _ & Hp').
        injection Hp' as -> _. rewrite E in Hinit.
        unfold PreparedKernel_init in Hinit.
        apply bind_ok in Hinit as (? & ? & _ & Hinit).
        apply bind_ok in Hinit as (cg & ? & Hcgv & Hinit).
        injection Hcgv as <- _.
        apply bind_ok in Hinit as ([[? ?] [[[? ?] ?] ?]] & ? & _ & Hinit).
        injection Hinit as <- _. reflexivity.
      * intros E. destruct (Hgrid E) as (grid & items & _ & _ & Hc & Hne).
        rewrite Hc. destruct items as [|? [|? [|? ?]]]; cbn; congruence.
    + now rewrite Hnc.
Qed.

Lemma cache_stays_consistent_witness :
  cache_consistent Demo.toolchain (Demo.engine ["A"] None true)
    (kernel_cache
       (run_actions Demo.toolchain (Demo.engine ["A"] None true)
          [ACall [] (Demo.call_kwargs (VInt 1) (VInt 0));
           ACall [] (Demo.call_kwargs (VInt 2) (VInt 0))]
          initial_world)).
Proof.
  apply cache_stays_consistent. split; constructor.
Defined.

(** ** Locks *)

(** X3.  The state of a lock.  After any interleaving of engine calls with
    [lock()] and [unlock()] calls, a lock is locked exactly when the last
    [lock()] or [unlock()] on that very lock was a [lock()] (or, if there was
    none, when it was locked before): engine calls and operations on other
    locks never change it, and its name is never changed. *)
Theorem lock_state_follows_last_operation (T : Toolchain) (self : JitCache)
  (r : nat) (acts : list Action) (w : World) :
  is_locked (lock_store (run_actions T self acts w) r)
  = lock_state_after r acts (is_locked (lock_store w r)) /\
  id (lock_store (run_actions T self acts w) r) = id (lock_store w r).
Proof.
  revert w. induction acts as [|a acts IH]; intros w; [now split|].
  unfold run_actions, lock_state_after in *. cbn [fold_left].
  destruct (IH (run_action T self a w)) as (IH1 & IH2).
  rewrite IH1, IH2. clear IH IH1 IH2.
  destruct a as [args kwargs|r'|r']; cbn [run_action].
  - now rewrite run_lock_store.
  - cbn. unfold store_set. rewrite (Nat.eqb_sym r r').
    destruct (Nat.eqb_spec r' r) as [->|Hne]; now split.
  - cbn. unfold store_set. rewrite (Nat.eqb_sym r r').
    destruct (Nat.eqb_spec r' r) as [->|Hne]; now split.
Qed.

(** ** Launches *)

Section LaunchFacts.

Variable T : Toolchain.

Lemma resolve_grid_frame pk kwargs :
  emits_only is_grid_call (resolve_grid_per_call T pk kwargs).
Proof. unfold resolve_grid_per_call, py_call. frame. Qed.

Lemma grid_calls_no_launch w w' :
  extends is_grid_call w w' -> launch_count w' = launch_count w.
Proof.
  unfold launch_count. apply extends_count. intros e H. now destruct e.
Qed.

Lemma quiet_no_launch w w' :
  extends quiet w w' -> launch_count w' = launch_count w.
Proof.
  unfold launch_count. apply extends_count. intros e H. now destruct e.
Qed.

(** An invocation launches at most once, and once when it returns. *)
Lemma call_launch_count pk args kwargs w :
  (launch_count (snd (PreparedKernel_call T pk args kwargs w))
   <= S (launch_count w))%nat /\
  (is_ok (fst (PreparedKernel_call T pk args kwargs w)) = true ->
   launch_count (snd (PreparedKernel_call T pk args kwargs w))
   = S (launch_count w)).
Proof.
  destruct (PreparedKernel_call T pk args kwargs w) as [r w'] eqn:H.
  cbn [fst snd]. revert H.
  unfold PreparedKernel_call. unfold bind at 1.
  destruct (length args =? 0)%nat; cbn [py_assert ret raise];
    [|intros [= <- <-]; split; [lia|discriminate]].
  unfold bind at 1.
  pose proof (mapM_lift_pure (getitem kwargs) (non_const_arg_names pk) w) as Hp.
  destruct (mapM _ (non_const_arg_names pk) w) as [[vals|e] w1];
    cbn [snd] in Hp; subst w1;
    [|intros [= <- <-]; split; [lia|discriminate]].
  unfold bind at 1.
  assert (Hg : forall (m : M (pyval * pyval * pyval)),
             emits_only is_grid_call m ->
             launch_count (snd (m w)) = launch_count w).
  { intros m Hm. apply grid_calls_no_launch, Hm. }
  match goal with
  | |- context [match ?m w with _ => _ end] =>
      assert (Hm : launch_count (snd (m w)) = launch_count w);
      [apply Hg; destruct (pk_cache_launch_grid pk);
       [destruct (concrete_grid pk); frame|apply resolve_grid_frame]|];
      destruct (m w) as [[[[g0 g1] g2]|e] w1]
  end; cbn [snd] in Hm.
  - rewrite bind_emit. unfold lift. intros [= <- <-].
    unfold launch_count, emit in *. cbn [snd trace].
    rewrite count_events_cons. cbn [is_launch].
    rewrite Hm. split; [lia|reflexivity].
  - intros [= <- <-]. split; [lia|discriminate].
Qed.

(** A call of the engine either fails without launching, or ends in the
    invocation of a prepared kernel. *)
Lemma run_ends_in_call self args kwargs w :
  (is_ok (fst (JitCache_run T self args kwargs w)) = false /\
   launch_count (snd (JitCache_run T self args kwargs w)) = launch_count w) \/
  exists pk wc,
    JitCache_run T self args kwargs w = PreparedKernel_call T pk args kwargs wc /\
    launch_count wc = launch_count w.
Proof.
  unfold JitCache_run. destruct (dynamic_mode self).
  - rewrite run_dynamic_eq.
    destruct (fst (check_call_shape args kwargs w)); [|now left].
    destruct (cache_index_func T self kwargs) as [key|e]; [|now left].
    destruct (dict_get (kernel_cache w) key) as [pk|]; [right; eauto|].
    cbv zeta. set (w0 := add_event _ w).
    destruct (fst (check_key_types (check_keys self) kwargs w0));
      [|now left].
    pose proof (quiet_no_launch _ _ (prepare_frame T self args kwargs w0))
      as Hl.
    destruct (JitCache_get_prepared_kernel T self args kwargs w0)
      as [[pk|e] w1]; cbn [snd] in Hl.
    + right. eexists _, _. split; [reflexivity|exact Hl].
    + left. split; [reflexivity|exact Hl].
  - rewrite run_static_eq.
    destruct (fst (check_call_shape args kwargs w)); [|now left].
    destruct (cache_lock self) as [r|]; [|now left].
    assert (Hs : forall w2, launch_count w2 = launch_count w ->
      (is_ok (fst (static_lookup_and_call T self args kwargs w2)) = false /\
       launch_count (snd (static_lookup_and_call T self args kwargs w2))
       = launch_count w) \/
      exists pk wc,
        static_lookup_and_call T self args kwargs w2
        = PreparedKernel_call T pk args kwargs wc /\
        launch_count wc = launch_count w).
    { intros w2 H2. unfold static_lookup_and_call.
      destruct (cache_index_func T self kwargs) as [key|e]; [|now left].
      destruct (dict_get (kernel_cache w2) key) as [pk|]; [right; eauto|].
      left. split; [reflexivity|exact H2]. }
    destruct (is_locked (lock_store w r)); [now apply Hs|].
    destruct (fst (check_key_types (check_keys self) kwargs w));
      [|now left].
    pose proof (quiet_no_launch _ _ (prepare_frame T self args kwargs w))
      as Hl.
    destruct (JitCache_get_prepared_kernel T self args kwargs w)
      as [[pk|e] w1]; cbn [snd] in Hl.
    + apply Hs. cbv zeta.
      destruct (dict_mem (get_key pk) (kernel_cache w1)); exact Hl.
    + left. split; [reflexivity|exact Hl].
Qed.

End LaunchFacts.

(** X4.  One launch per call.  In either mode a call of the engine launches
    the kernel at most once, and exactly once when it returns normally; the
    compilation itself never launches. *)
Theorem one_launch_per_call (T : Toolchain) (self : JitCache)
  (args : list pyval) (kwargs : kwargs_t) (w : World) :
  let res := fst (JitCache_run T self args kwargs w) in
  let w' := snd (JitCache_run T self args kwargs w) in
  (launch_count w' <= S (launch_count w))%nat /\
  (is_ok res = true -> launch_count w' = S (launch_count w)) /\
  launch_count (snd (JitCache_get_prepared_kernel T self args kwargs w))
  = launch_count w.
Proof.
  cbv zeta. split_and!.
  - destruct (run_ends_in_call T self args kwargs w)
      as [(_ & H)|(pk & wc & -> & Hc)]; [lia|].
    rewrite <- Hc. apply call_launch_count.
  - destruct (run_ends_in_call T self args kwargs w)
      as [(H & _)|(pk & wc & -> & Hc)]; [congruence|].
    rewrite <- Hc. apply call_launch_count.
  - exact (quiet_no_launch _ _ (prepare_frame T self args kwargs w)).
Qed.

Lemma one_launch_per_call_witness :
  launch_count
    (snd (JitCache_run Demo.toolchain (Demo.engine ["A"] None false) []
            (Demo.call_kwargs (VInt 1) (VInt 0)) initial_world)) = 1%nat.
Proof.
  destruct (one_launch_per_call Demo.toolchain (Demo.engine ["A"] None false)
              [] (Demo.call_kwargs (VInt 1) (VInt 0)) initial_world)
    as (_ & H & _).
  apply H. reflexivity.
Defined.

(** ** Calls that are rejected at the door *)

(** X5.  Malformed calls.  In either mode, a call with positional arguments
    raises the [RuntimeError] about keyword arguments, and a keyword-only
    call whose [pre_hook] is bound to something other than [None] raises
    [AssertionError]; both leave the world exactly as it was (nothing is
    compiled, cached, logged or launched). *)
Theorem malformed_call_is_rejected (T : Toolchain) (self : JitCache)
  (args : list pyval) (kwargs : kwargs_t) (w : World) :
  (args <> [] ->
   JitCache_run T self args kwargs w
   = (Raise (RuntimeError msg_only_kwargs), w)) /\
  (args = [] -> pre_hook_ok kwargs = false ->
   JitCache_run T self args kwargs w = (Raise AssertionError, w)).
Proof.
  assert (Hrun : forall e,
    fst (check_call_shape args kwargs w) = Raise e ->
    JitCache_run T self args kwargs w = (Raise e, w)).
  { intros e He. unfold JitCache_run.
    destruct (dynamic_mode self);
      [rewrite run_dynamic_eq|rewrite run_static_eq]; now rewrite He. }
  split.
  - intros Hne. apply Hrun. destruct args; [contradiction|reflexivity].
  - intros -> Hp. apply Hrun. unfold check_call_shape. munfold. cbn.
    now rewrite Hp.
Qed.

Lemma malformed_call_is_rejected_witness :
  JitCache_run Demo.toolchain (Demo.engine ["A"] None false) [VInt 1]
    (Demo.call_kwargs (VInt 1) (VInt 0)) initial_world
  = (Raise (RuntimeError msg_only_kwargs), initial_world) /\
  JitCache_run Demo.toolchain (Demo.engine ["A"] None false) []
    (<["pre_hook" := VCallable 7]> (Demo.call_kwargs (VInt 1) (VInt 0)))
    initial_world
  = (Raise AssertionError, initial_world).
Proof.
  split.
  - apply (malformed_call_is_rejected Demo.toolchain
             (Demo.engine ["A"] None false) [VInt 1]). discriminate.
  - apply (malformed_call_is_rejected Demo.toolchain
             (Demo.engine ["A"] None false) []); reflexivity.
Defined.

Lemma selector_values_missing keys kwargs key :
  In key keys -> kwargs !! key = None ->
  exists k, selector_values keys kwargs = Raise (KeyError k) /\
            In k keys /\ kwargs !! k = None.
Proof.
  intros Hin Hn. induction keys as [|k0 keys IH]; [contradiction|].
  cbn [selector_values]. unfold getitem.
  destruct (kwargs !! k0) as [v0|] eqn:E0.
  - destruct Hin as [->|Hin]; [congruence|].
    destruct (IH Hin) as (k & -> & Hk & Hkn).
    exists k. split_and!; auto. now right.
  - exists k0. split_and!; auto. now left.
Qed.

Lemma check_key_types_missing keys kwargs key w :
  In key keys -> kwargs !! key = None ->
  exists e, check_key_types keys kwargs w = (Raise e, w).
Proof.
  intros Hin Hn. induction keys as [|k0 keys IH]; [contradiction|].
  cbn [check_key_types]. munfold. unfold getitem.
  destruct (kwargs !! k0) as [v0|] eqn:E0; [|eauto].
  destruct (is_index_type v0); [|eauto].
  destruct Hin as [->|Hin]; [congruence|]. now apply IH.
Qed.

(** X6.  A missing selector key.  In either mode and whatever the state of
    the lock, a call whose keyword arguments lack one of the selector keys
    fails and leaves the world exactly as it was: nothing is compiled,
    cached, logged, printed or launched. *)
Theorem missing_selector_key_has_no_effect (T : Toolchain) (self : JitCache)
  (args : list pyval) (kwargs : kwargs_t) (key : string) (w : World) :
  In key (check_keys self) ->
  kwargs !! key = None ->
  is_ok (fst (JitCache_run T self args kwargs w)) = false /\
  snd (JitCache_run T self args kwargs w) = w.
Proof.
  intros Hin Hn.
  assert (Hk : exists k, cache_index_func T self kwargs = Raise (KeyError k)).
  { rewrite cache_index_func_spec. unfold spec_cache_key.
    destruct (check_keys self) as [|k0 keys] eqn:E; [contradiction|].
    destruct (selector_values_missing (k0 :: keys) kwargs key Hin Hn)
      as (k & -> & _). eauto. }
  destruct Hk as (k & Hk).
  unfold JitCache_run. destruct (dynamic_mode self).
  - rewrite run_dynamic_eq.
    destruct (fst (check_call_shape args kwargs w)); [|now split].
    rewrite Hk. now split.
  - rewrite run_static_eq.
    destruct (fst (check_call_shape args kwargs w)); [|now split].
    destruct (cache_lock self) as [r|]; [|now split].
    destruct (is_locked (lock_store w r)).
    + unfold static_lookup_and_call. rewrite Hk. now split.
    + destruct (check_key_types_missing _ kwargs key w Hin Hn) as (e & ->).
      now split.
Qed.

Lemma missing_selector_key_has_no_effect_witness :
  snd (JitCache_run Demo.toolchain (Demo.engine ["A"; "C"] None false) []
         (Demo.call_kwargs (VInt 1) (VInt 0)) initial_world)
  = initial_world.
Proof.
  apply (missing_selector_key_has_no_effect Demo.toolchain
           (Demo.engine ["A"; "C"] None false) []
           (Demo.call_kwargs (VInt 1) (VInt 0)) "C").
  - right. now left.
  - reflexivity.
Defined.

(** ** Warm up, then lock *)

Section FrozenFacts.

Variable T : Toolchain.

Lemma run_static_locked_frozen self r args kwargs w :
  dynamic_mode self = false -> cache_lock self = Some r ->
  is_locked (lock_store w r) = true ->
  kernel_cache (snd (JitCache_run T self args kwargs w)) = kernel_cache w /\
  compile_count (snd (JitCache_run T self args kwargs w)) = compile_count w.
Proof.
  intros Hd Hl Hb. unfold JitCache_run. rewrite Hd.
  rewrite (run_static_locked T self r args kwargs w Hl Hb).
  destruct (fst (check_call_shape args kwargs w)); [|now split].
  pose proof (static_lookup_frame T self args kwargs w) as Hf.
  split; [apply Hf|now apply not_compile_count].
Qed.

Lemma run_actions_frozen self r acts : forall w,
  dynamic_mode self = false -> cache_lock self = Some r ->
  Forall (fun a => a <> AUnlock r) acts ->
  is_locked (lock_store w r) = true ->
  kernel_cache (run_actions T self acts w) = kernel_cache w /\
  compile_count (run_actions T self acts w) = compile_count w /\
  is_locked (lock_store (run_actions T self acts w) r) = true.
Proof.
  induction acts as [|a acts IH]; intros w Hd Hl Hacts Hb; [now split_and!|].
  cbn [run_actions fold_left]. inversion Hacts as [|? ? Ha Hrest]; subst.
  assert (Hstep :
    kernel_cache (run_action T self a w) = kernel_cache w /\
    compile_count (run_action T self a w) = compile_count w /\
    is_locked (lock_store (run_action T self a w) r) = true).
  { destruct a as [args kwargs|r'|r']; cbn [run_action].
    - destruct (run_static_locked_frozen self r args kwargs w Hd Hl Hb)
        as (H1 & H2).
      split_and!; auto. now rewrite run_lock_store.
    - split_and!; [reflexivity|reflexivity|].
      cbn. unfold store_set. now destruct (r =? r')%nat.
    - split_and!; [reflexivity|reflexivity|].
      cbn. unfold store_set.
      destruct (Nat.eqb_spec r r') as [->|Hne]; [congruence|exact Hb]. }
  destruct Hstep as (H1 & H2 & H3).
  destruct (IH (run_action T self a w) Hd Hl Hrest H3) as (I1 & I2 & I3).
  unfold run_actions in *. split_and!; congruence.
Qed.

End FrozenFacts.

(** X7.  A locked cache is frozen.  In static mode, from the moment the lock
    is locked and as long as nobody unlocks it, no sequence of calls and
    other lock operations compiles anything or changes the cache. *)
Theorem locked_cache_is_frozen (T : Toolchain) (self : JitCache) (r : nat)
  (acts : list Action) (w : World) :
  dynamic_mode self = false ->
  cache_lock self = Some r ->
  Forall (fun a => a <> AUnlock r) acts ->
  let w' := run_actions T self acts (snd (CacheLock_lock r w)) in
  kernel_cache w' = kernel_cache w /\
  compile_count w' = compile_count w /\
  is_locked (lock_store w' r) = true.
Proof.
  intros Hd Hl Hacts w'. subst w'.
  destruct (run_actions_frozen T self r acts (snd (CacheLock_lock r w))
              Hd Hl Hacts) as (H1 & H2 & H3).
  - cbn. unfold store_set. now rewrite Nat.eqb_refl.
  - split_and!; auto.
Qed.

Lemma locked_cache_is_frozen_witness :
  compile_count
    (run_actions Demo.toolchain (Demo.engine ["A"] (Some 0%nat) false)
       [ACall [] (Demo.call_kwargs (VInt 1) (VInt 0)); ALock 1%nat;
        ACall [] (Demo.call_kwargs (VInt 2) (VInt 0))]
       (snd (CacheLock_lock 0 initial_world)))
  = 0%nat.
Proof.
  destruct (locked_cache_is_frozen Demo.toolchain
              (Demo.engine ["A"] (Some 0%nat) false) 0%nat
              [ACall [] (Demo.call_kwargs (VInt 1) (VInt 0)); ALock 1%nat;
               ACall [] (Demo.call_kwargs (VInt 2) (VInt 0))]
              initial_world)
    as (_ & H & _).
  - reflexivity.
  - reflexivity.
  - repeat constructor; discriminate.
  - exact H.
Defined.

(** X8.  Warm up, then lock.  In static mode, when a well-formed call made
    while the lock is unlocked has compiled a prepared kernel for its key,
    then after [lock()], and whatever calls and lock operations other than
    [unlock()] of that lock follow, every keyword-only call that derives the
    same key compiles nothing and invokes exactly that prepared kernel. *)
Theorem warm_then_lock_hits (T : Toolchain) (self : JitCache) (r : nat)
  (kwargs kwargs2 : kwargs_t) (key : string) (pk : PreparedKernel)
  (w w1 : World) (acts : list Action) :
  dynamic_mode self = false ->
  cache_lock self = Some r ->
  ~ In "warmup" (check_keys self) ->
  is_locked (lock_store w r) = false ->
  pre_hook_ok kwargs = true ->
  selector_types_ok (check_keys self) kwargs ->
  cache_index_func T self kwargs = Ok key ->
  JitCache_get_prepared_kernel T self [] kwargs w = (Ok pk, w1) ->
  Forall (fun a => a <> AUnlock r) acts ->
  pre_hook_ok kwargs2 = true ->
  cache_index_func T self kwargs2 = Ok key ->
  let warm := snd (JitCache_run T self [] kwargs w) in
  let w2 := run_actions T self acts (snd (CacheLock_lock r warm)) in
  JitCache_run T self [] kwargs2 w2 = PreparedKernel_call T pk [] kwargs2 w2 /\
  compile_count (snd (JitCache_run T self [] kwargs2 w2)) = compile_count w2.
Proof.
  intros Hd Hl Hw Hu Hp Ht Hk Hprep Hacts Hp2 Hk2 warm w2.
  destruct (static_unlocked_compiles_and_inserts T self r kwargs w
              Hl Hu Hp Ht) as (_ & Hins).
  specialize (Hins pk w1 Hprep).
  rewrite (prepare_ok_key T _ _ _ _ _ _ _ Hw Hk Hprep) in Hins.
  destruct (run_actions_frozen T self r acts (snd (CacheLock_lock r warm))
              Hd Hl Hacts) as (H1 & _ & H3).
  { cbn. unfold store_set. now rewrite Nat.eqb_refl. }
  fold w2 in H1, H3.
  assert (Hg : dict_get (kernel_cache w2) key = Some pk).
  { rewrite H1. subst warm. unfold JitCache_run. rewrite Hd. exact Hins. }
  unfold JitCache_run. rewrite Hd.
  rewrite (run_static_locked T self r [] kwargs2 w2 Hl H3).
  rewrite check_call_shape_ok by assumption. cbn [fst].
  unfold static_lookup_and_call. rewrite Hk2, Hg.
  split; [reflexivity|apply call_compile_count].
Qed.

Lemma warm_then_lock_hits_witness :
  let self := Demo.engine ["A"] (Some 0%nat) false in
  let kwargs := Demo.call_kwargs (VInt 1) (VInt 0) in
  let kwargs2 := Demo.call_kwargs (VInt 1) (VInt 5) in
  let warm := snd (JitCache_run Demo.toolchain self [] kwargs initial_world) in
  let w2 := snd (CacheLock_lock 0 warm) in
  exists pk w1,
    JitCache_get_prepared_kernel Demo.toolchain self [] kwargs initial_world
    = (Ok pk, w1) /\
    JitCache_run Demo.toolchain self [] kwargs2 w2
    = PreparedKernel_call Demo.toolchain pk [] kwargs2 w2.
Proof.
  intros self kwargs kwargs2 warm w2.
  destruct (JitCache_get_prepared_kernel Demo.toolchain self [] kwargs
              initial_world) as [[pk|e] w1] eqn:Hprep.
  2: { exfalso.
       assert (He : fst (JitCache_get_prepared_kernel Demo.toolchain self []
                           kwargs initial_world) = Raise e)
         by now rewrite Hprep.
       vm_compute in He. discriminate He. }
  exists pk, w1. split; [reflexivity|].
  apply (warm_then_lock_hits Demo.toolchain self 0%nat kwargs kwargs2 "1"
           pk initial_world w1 []).
  - reflexivity.
  - reflexivity.
  - cbn. intros [H|[]]. discriminate H.
  - reflexivity.
  - reflexivity.
  - constructor; [|constructor]. exists (VInt 1). split; reflexivity.
  - reflexivity.
  - exact Hprep.
  - constructor.
  - reflexivity.
  - reflexivity.
Defined.

(** ** Invoking a prepared kernel *)

Section InvokeFacts.

Variable T : Toolchain.

Lemma mapM_getitem names kwargs w :
  mapM (fun arg_n => lift (getitem kwargs arg_n)) names w
  = (selector_values names kwargs, w).
Proof.
  induction names as [|n names IH]; cbn [mapM selector_values];
    [reflexivity|].
  munfold. destruct (getitem kwargs n) as [v|e]; [|reflexivity].
  unfold lift in IH. rewrite IH.
  now destruct (selector_values names kwargs).
Qed.

Lemma grid_dims_of_items grid items g3 :
  seq_items grid = Some items -> grid3 items = Some g3 ->
  exists n g0 g1 g2,
    g3 = (g0, g1, g2) /\ py_len grid = Ok n /\ py_index grid 0 = Ok g0 /\
    grid_dim grid n 1 = Ok g1 /\ grid_dim grid n 2 = Ok g2.
Proof.
  intros Hs Hg.
  assert (Hitems : exists n g0 g1 g2,
    g3 = (g0, g1, g2) /\ n = length items /\
    items !! 0%nat = Some g0 /\
    (if (1 <? n)%nat
     then match items !! 1%nat with Some x => Ok x | None => Raise IndexError end
     else Ok (VInt 1)) = Ok g1 /\
    (if (2 <? n)%nat
     then match items !! 2%nat with Some x => Ok x | None => Raise IndexError end
     else Ok (VInt 1)) = Ok g2).
  { destruct items as [|i0 [|i1 [|i2 rest]]]; cbn in Hg;
      [discriminate| | |]; injection Hg as <-;
      eexists _, _, _, _; split_and!; reflexivity. }
  destruct Hitems as (n & g0 & g1 & g2 & -> & -> & H0 & H1 & H2).
  exists (length items), g0, g1, g2.
  destruct grid; cbn in Hs; try discriminate; injection Hs as ->;
    unfold grid_dim; cbn [py_len py_index]; rewrite H0; split_and!; auto.
Qed.

End InvokeFacts.

(** X9.  The grid of a call without memoization.  A prepared kernel built
    without [cache_launch_grid] resolves the grid anew in every invocation,
    from the keyword arguments of that invocation and in the way that was
    fixed when it was built ([grid_is_callable]).  When the [grid] argument
    is of the kind recorded then, a callable grid is called once with the
    keyword arguments and a plain grid is read as it is; the result is padded
    with 1 to three dimensions, and the launch receives it together with the
    current values of the runtime parameters, in the order of the kernel's
    parameter list.  When it is of the other kind (a callable for a kernel
    built with a plain grid, or the reverse), the invocation raises
    [TypeError] and launches nothing. *)
Theorem per_call_grid_resolution (T : Toolchain) (pk : PreparedKernel)
  (kwargs : kwargs_t) (g : pyval) (vals : list pyval) (w : World) :
  pk_cache_launch_grid pk = false ->
  kwargs !! "grid" = Some g ->
  selector_values (non_const_arg_names pk) kwargs = Ok vals ->
  (callable g = grid_is_callable pk ->
   forall grid items g3,
     prepare_time_grid T kwargs = Ok grid ->
     seq_items grid = Some items ->
     grid3 items = Some g3 ->
     PreparedKernel_call T pk [] kwargs w
     = (launch_result T pk g3 vals,
        add_event (launch_event pk g3 vals)
          (match g with
           | VCallable c => add_event (EGridCall c kwargs) w
           | _ => w
           end))) /\
  (callable g <> grid_is_callable pk ->
   PreparedKernel_call T pk [] kwargs w = (Raise TypeError, w)).
Proof.
  intros Hflag Hg Hvals.
  assert (Hcall :
    PreparedKernel_call T pk [] kwargs w
    = bind (resolve_grid_per_call T pk kwargs)
        (fun g3 =>
           let '(grid_0, grid_1, grid_2) := g3 in
           do! emit (launch_event pk (grid_0, grid_1, grid_2) vals) in
           lift (launch_result T pk (grid_0, grid_1, grid_2) vals)) w).
  { unfold PreparedKernel_call. rewrite Hflag.
    cbn [length Nat.eqb py_assert].
    rewrite bind_run_ok with (a := tt) (w1 := w) by reflexivity.
    rewrite bind_run_ok with (a := vals) (w1 := w)
      by now rewrite mapM_getitem, Hvals.
    reflexivity. }
  rewrite Hcall. unfold resolve_grid_per_call, getitem. rewrite Hg. split.
  - intros Hc grid items g3 Hgrid Hs Hg3.
    destruct (grid_dims_of_items grid items g3 Hs Hg3)
      as (n & g0 & g1 & g2 & -> & Hn & H0 & H1 & H2).
    rewrite <- Hc.
    unfold prepare_time_grid, getitem in Hgrid. rewrite Hg in Hgrid.
    destruct g; cbn [callable py_call] in *;
      try (injection Hgrid as <-; munfold; rewrite Hn, H0, H1, H2;
           reflexivity).
    munfold. cbn. rewrite Hgrid, Hn, H0, H1, H2. reflexivity.
  - intros Hne.
    destruct (grid_is_callable pk); destruct g; cbn [callable] in Hne;
      try congruence; reflexivity.
Qed.

Lemma per_call_grid_resolution_witness :
  let k := Demo.compile (Demo.call_kwargs (VInt 1) (VInt 0)) in
  let pk_fn :=
    Build_PreparedKernel (VCallable 0) true 1 false None k
      2 3 4 ["x"; "y"] 0 1 5 101376 10 1100 32 0 "1" in
  let pk_plain :=
    Build_PreparedKernel (VTuple [VInt 128]) false 1 false None k
      2 3 4 ["x"; "y"] 0 1 5 101376 10 1100 32 0 "1" in
  let kwargs_fn := Demo.call_kwargs_grid_fn (VInt 1) (VInt 0) (VInt 256) in
  PreparedKernel_call Demo.toolchain pk_fn [] kwargs_fn initial_world
  = (launch_result Demo.toolchain pk_fn (VInt 256, VInt 1, VInt 1)
       [VObject 1; VObject 2],
     add_event (launch_event pk_fn (VInt 256, VInt 1, VInt 1)
                  [VObject 1; VObject 2])
       (add_event (EGridCall 0 kwargs_fn) initial_world)) /\
  PreparedKernel_call Demo.toolchain pk_plain [] kwargs_fn initial_world
  = (Raise TypeError, initial_world).
Proof.
  intros k pk_fn pk_plain kwargs_fn. split.
  - apply (proj1 (per_call_grid_resolution Demo.toolchain pk_fn kwargs_fn
                    (VCallable 0) [VObject 1; VObject 2] initial_world
                    eq_refl eq_refl eq_refl)
             eq_refl (VTuple [VInt 256]) [VInt 256]);
      reflexivity.
  - apply (proj2 (per_call_grid_resolution Demo.toolchain pk_plain kwargs_fn
                    (VCallable 0) [VObject 1; VObject 2] initial_world
                    eq_refl eq_refl eq_refl)).
    discriminate.
Defined.

(** X10.  A missing runtime argument.  An invocation whose keyword arguments
    lack one of the kernel's runtime parameters raises the [KeyError] of
    such a parameter before the grid is resolved and before any launch,
    leaving the world as it was. *)
Theorem missing_runtime_argument (T : Toolchain) (pk : PreparedKernel)
  (kwargs : kwargs_t) (arg : string) (w : World) :
  In arg (non_const_arg_names pk) ->
  kwargs !! arg = None ->
  exists k,
    In k (non_const_arg_names pk) /\ kwargs !! k = None /\
    PreparedKernel_call T pk [] kwargs w = (Raise (KeyError k), w).
Proof.
  intros Hin Hn.
  destruct (selector_values_missing _ kwargs arg Hin Hn) as (k & Hk & Hi & Hm).
  exists k. split_and!; auto.
  unfold PreparedKernel_call. cbn [length Nat.eqb py_assert].
  rewrite bind_run_ok with (a := tt) (w1 := w) by reflexivity.
  unfold bind at 1. now rewrite mapM_getitem, Hk.
Qed.

Lemma missing_runtime_argument_witness :
  exists k,
    PreparedKernel_call Demo.toolchain
      (Build_PreparedKernel (VTuple [VInt 128]) false 1 false None
         (Demo.compile (Demo.call_kwargs (VInt 1) (VInt 0)))
         2 3 4 ["x"; "y"] 0 1 5 101376 10 1100 32 0 "1")
      [] (delete "y" (Demo.call_kwargs (VInt 1) (VInt 0))) initial_world
    = (Raise (KeyError k), initial_world).
Proof.
  destruct (missing_runtime_argument Demo.toolchain
              (Build_PreparedKernel (VTuple [VInt 128]) false 1 false None
                 (Demo.compile (Demo.call_kwargs (VInt 1) (VInt 0)))
                 2 3 4 ["x"; "y"] 0 1 5 101376 10 1100 32 0 "1")
              (delete "y" (Demo.call_kwargs (VInt 1) (VInt 0))) "y"
              initial_world) as (k & _ & _ & Hk).
  - right. now left.
  - reflexivity.
  - exists k. exact Hk.
Defined.

(** X11.  An empty grid.  A grid that resolves to an empty sequence is an
    [IndexError]: at construction when the grid is to be memoized (no binary
    is loaded, no prepared kernel is built), and otherwise in the invocation,
    before the launch, whether the grid is read as it is (the world is left
    as it was) or obtained by calling a callable grid (the world has only
    gained that grid call). *)
Theorem empty_grid_is_index_error (T : Toolchain) (grid : pyval) :
  seq_items grid = Some [] ->
  (forall g k lm en ex nc key dev strm w,
     PreparedKernel_init T g grid true k lm en ex nc key dev strm w
     = (Raise IndexError, w)) /\
  (forall pk kwargs g vals w,
     pk_cache_launch_grid pk = false ->
     kwargs !! "grid" = Some g ->
     callable g = grid_is_callable pk ->
     prepare_time_grid T kwargs = Ok grid ->
     selector_values (non_const_arg_names pk) kwargs = Ok vals ->
     PreparedKernel_call T pk [] kwargs w
     = (Raise IndexError,
        match g with
        | VCallable c => add_event (EGridCall c kwargs) w
        | _ => w
        end)).
Proof.
  intros Hs.
  assert (Hlen : py_len grid = Ok 0%nat /\ py_index grid 0 = Raise IndexError).
  { destruct grid; cbn in Hs; try discriminate; injection Hs as ->; now split. }
  destruct Hlen as (Hlen & Hidx). split.
  - intros. unfold PreparedKernel_init. munfold. now rewrite Hlen, Hidx.
  - intros pk kwargs g vals w Hflag Hg Hc Hgrid Hvals.
    unfold PreparedKernel_call, resolve_grid_per_call.
    rewrite Hflag, <- Hc. cbn [length Nat.eqb py_assert].
    rewrite bind_run_ok with (a := tt) (w1 := w) by reflexivity.
    rewrite bind_run_ok with (a := vals) (w1 := w)
      by now rewrite mapM_getitem, Hvals.
    unfold prepare_time_grid, getitem in Hgrid. rewrite Hg in Hgrid.
    unfold getitem. rewrite Hg.
    destruct g; cbn [callable py_call] in *;
      try (injection Hgrid as <-; munfold; rewrite Hlen, Hidx; reflexivity).
    munfold. cbn. rewrite Hgrid, Hlen, Hidx. reflexivity.
Qed.

Lemma empty_grid_is_index_error_witness :
  let k := Demo.compile (Demo.call_kwargs (VInt 1) (VInt 0)) in
  let kwargs := <["grid" := VTuple []]> (Demo.call_kwargs (VInt 1) (VInt 0)) in
  PreparedKernel_init Demo.toolchain (VTuple []) (VTuple []) true k
    2 3 4 ["x"; "y"] "1" 0 1 initial_world
  = (Raise IndexError, initial_world) /\
  PreparedKernel_call Demo.toolchain
    (Build_PreparedKernel (VTuple [VInt 128]) false 1 false None k
       2 3 4 ["x"; "y"] 0 1 5 101376 10 1100 32 0 "1")
    [] kwargs initial_world
  = (Raise IndexError, initial_world).
Proof.
  intros k kwargs. split.
  - apply (proj1 (empty_grid_is_index_error Demo.toolchain (VTuple [])
                    eq_refl)).
  - apply (proj2 (empty_grid_is_index_error Demo.toolchain (VTuple [])
                    eq_refl) _ kwargs (VTuple []) [VObject 1; VObject 2]);
      reflexivity.
Defined.

(** X12.  A kernel within the device's capacity.  When the launcher can be
    built and the kernel's shared memory does not exceed the device's
    maximum (equality included), [_init_handles] loads the binary once, for
    the kernel's name, binary and shared-memory size on that device, and
    hands back what the driver returned together with the device maximum. *)
Theorem init_handles_within_capacity (T : Toolchain) (k : CompiledKernel)
  (dev run_ : handle) (bin : handle * handle * Z * Z) (w : World) :
  launcher_cls T (src k) (metadata k) = Ok run_ ->
  (shared (metadata k) <= max_shared_mem T dev)%Z ->
  load_binary T (name k) (kernel k) (shared (metadata k)) dev = Ok bin ->
  PreparedKernel_init_handles T k dev w
  = (Ok (run_, max_shared_mem T dev, bin),
     add_event (ELoadBinary (name k) dev) w).
Proof.
  intros Hl Hle Hb. unfold PreparedKernel_init_handles. munfold.
  rewrite Hl. destruct (Z.gtb_spec (shared (metadata k)) (max_shared_mem T dev));
    [lia|]. now rewrite Hb.
Qed.

Lemma init_handles_within_capacity_witness :
  PreparedKernel_init_handles Demo.toolchain
    (Demo.compile (Demo.call_kwargs (VInt 3) (VInt 0))) 0 initial_world
  = (Ok (5%nat, 101376%Z, (10%nat, 3100%nat, 32%Z, 0%Z)),
     add_event (ELoadBinary "kernel_A3_B0" 0) initial_world).
Proof.
  apply (init_handles_within_capacity Demo.toolchain
           (Demo.compile (Demo.call_kwargs (VInt 3) (VInt 0))) 0%nat).
  - reflexivity.
  - vm_compute. discriminate.
  - reflexivity.
Defined.


(** ** Keys that cannot collide *)

Lemma string_of_int_inj (a b : Z) :
  NilZero.string_of_int (Z.to_int a) = NilZero.string_of_int (Z.to_int b) ->
  a = b.
Proof.
  intros H. apply DecimalZ.to_int_inj.
  assert (Hnn : forall z, Z.to_int z <> Decimal.Pos Decimal.Nil /\
                          Z.to_int z <> Decimal.Neg Decimal.Nil).
  { intros [|p|p]; cbn; split; try discriminate;
      intros [= E]; now apply DecimalPos.Unsigned.to_uint_nonnil in E. }
  assert (Hs : Some (Z.to_int a) = Some (Z.to_int b)).
  { rewrite <- (NilZero.isi (Z.to_int a)), <- (NilZero.isi (Z.to_int b));
      try apply Hnn. now rewrite H. }
  now injection Hs.
Qed.

Lemma string_of_int_not_bool (T : Toolchain) (a : Z) (b : bool) :
  NilZero.string_of_int (Z.to_int a) <> py_str T (VBool b).
Proof.
  destruct (Z.to_int a) as [d|d]; destruct d, b; cbn; discriminate.
Qed.

(** X14.  A single selector key of integers and booleans.  With exactly one
    selector key, two calls whose values for it are integers or booleans
    derive the same cache key only when the values are the same (so [1] and
    [True], which Python holds equal, get separate entries).  Collisions
    need at least two selector keys, or other types. *)
Theorem single_key_is_injective (T : Toolchain) (self : JitCache)
  (k : string) (kwargs1 kwargs2 : kwargs_t) (v1 v2 : pyval) :
  check_keys self = [k] ->
  kwargs1 !! k = Some v1 -> kwargs2 !! k = Some v2 ->
  (exists a, v1 = VInt a) \/ (exists b, v1 = VBool b) ->
  (exists a, v2 = VInt a) \/ (exists b, v2 = VBool b) ->
  cache_index_func T self kwargs1 = cache_index_func T self kwargs2 ->
  v1 = v2.
Proof.
  intros Hk H1 H2 Hv1 Hv2.
  unfold cache_index_func, calc_cache_index. rewrite Hk.
  cbn [length Nat.eqb calc_cache_index_loop]. unfold getitem.
  rewrite H1, H2. intros [= E].
  change ("" +:+ py_str T v1) with (py_str T v1) in E.
  change ("" +:+ py_str T v2) with (py_str T v2) in E.
  destruct Hv1 as [(a1 & ->)|(b1 & ->)], Hv2 as [(a2 & ->)|(b2 & ->)].
  - f_equal. now apply string_of_int_inj.
  - exfalso. now apply (string_of_int_not_bool T a1 b2).
  - exfalso. symmetry in E. now apply (string_of_int_not_bool T a2 b1).
  - destruct b1, b2; cbn in E; try discriminate; reflexivity.
Qed.

Lemma single_key_is_injective_witness :
  cache_index_func Demo.toolchain (Demo.engine ["A"] None false)
    (Demo.call_kwargs (VInt 1) (VInt 0))
  <> cache_index_func Demo.toolchain (Demo.engine ["A"] None false)
       (Demo.call_kwargs (VBool true) (VInt 0)).
Proof.
  intros E.
  assert (H : VInt 1 = VBool true).
  { apply (single_key_is_injective Demo.toolchain
             (Demo.engine ["A"] None false) "A"
             (Demo.call_kwargs (VInt 1) (VInt 0))
             (Demo.call_kwargs (VBool true) (VInt 0))).
    - reflexivity.
    - reflexivity.
    - reflexivity.
    - left. now exists 1%Z.
    - right. now exists true.
    - exact E. }
  discriminate H.
Defined.

(** ** An engine without selector keys *)

Section DefaultKey.

Variable T : Toolchain.


End DefaultKey.



(** ** Every change of the cache comes from a compilation *)

(** X16.  How a call changes the cache.  In either mode a call either leaves
    the cache as it is (a hit, a locked lookup, a rejected call, a failed
    type check, a failed compilation) or stores one prepared kernel that a
    successful compilation of this call's arguments returned, under the key
    that prepared kernel reports; it never removes or alters another
    entry. *)
Theorem cache_changes_only_by_compiled_kernel (T : Toolchain)
  (self : JitCache) (args : list pyval) (kwargs : kwargs_t) (w : World) :
  let w' := snd (JitCache_run T self args kwargs w) in
  kernel_cache w' = kernel_cache w \/
  exists pk w0 w1,
    JitCache_get_prepared_kernel T self args kwargs w0 = (Ok pk, w1) /\
    kernel_cache w' = dict_set (kernel_cache w) (get_key pk) pk /\
    dict_get (kernel_cache w') (get_key pk) = Some pk /\
    forall key, key <> get_key pk ->
                dict_get (kernel_cache w') key = dict_get (kernel_cache w) key.
Proof.
  cbv zeta.
  destruct (run_cache_step T self args kwargs w)
    as [H|(pk & w0 & w1 & Hp & H)]; [now left|].
  right. exists pk, w0, w1. rewrite H. split_and!; auto.
  - apply dict_get_set_eq.
  - intros key Hne. apply dict_get_set_ne. congruence.
Qed.

(** X17.  A warmup call invokes what it compiled.  In static mode with the
    lock unlocked, a well-formed call whose compilation succeeds stores the
    new prepared kernel under the key of the call (logging the advisory
    message exactly when that key was already cached) and then invokes that
    new prepared kernel; the lookup that follows the warmup block cannot miss
    and nothing is printed. *)
Theorem static_warmup_invokes_fresh_kernel (T : Toolchain) (self : JitCache)
  (r : nat) (kwargs : kwargs_t) (key : string) (pk : PreparedKernel)
  (w w1 : World) :
  dynamic_mode self = false ->
  cache_lock self = Some r ->
  is_locked (lock_store w r) = false ->
  ~ In "warmup" (check_keys self) ->
  pre_hook_ok kwargs = true ->
  selector_types_ok (check_keys self) kwargs ->
  cache_index_func T self kwargs = Ok key ->
  JitCache_get_prepared_kernel T self [] kwargs w = (Ok pk, w1) ->
  JitCache_run T self [] kwargs w
  = PreparedKernel_call T pk [] kwargs
      (set_cache (dict_set (kernel_cache w) key pk)
         (if dict_mem key (kernel_cache w)
          then add_event (ELog LogOverrideWarning) w1 else w1)).
Proof.
  intros Hd Hl Hb Hw Hp Ht Hk Hprep.
  pose proof (prepare_ok_key T _ _ _ _ _ _ _ Hw Hk Hprep) as Hkey.
  pose proof (prepare_cache T self [] kwargs w) as Hc.
  rewrite Hprep in Hc. cbn [snd] in Hc.
  unfold JitCache_run. rewrite Hd.
  rewrite (run_static_unlocked T self r kwargs w Hl Hb Hp Ht), Hprep.
  rewrite Hkey, Hc. cbv zeta.
  assert (Hc2 : kernel_cache
                  (if dict_mem key (kernel_cache w)
                   then add_event (ELog LogOverrideWarning) w1 else w1)
                = kernel_cache w).
  { destruct (dict_mem key (kernel_cache w)); exact Hc. }
  rewrite Hc2. unfold static_lookup_and_call. rewrite Hk.
  cbn [set_cache put_cache snd kernel_cache].
  now rewrite dict_get_set_eq.
Qed.

Lemma static_warmup_invokes_fresh_kernel_witness :
  let self := Demo.engine ["A"] (Some 0%nat) false in
  let kwargs := Demo.call_kwargs (VInt 1) (VInt 0) in
  exists pk w1,
    JitCache_get_prepared_kernel Demo.toolchain self [] kwargs initial_world
    = (Ok pk, w1) /\
    JitCache_run Demo.toolchain self [] kwargs initial_world
    = PreparedKernel_call Demo.toolchain pk [] kwargs
        (set_cache [("1", pk)] w1).
Proof.
  intros self kwargs.
  destruct (JitCache_get_prepared_kernel Demo.toolchain self [] kwargs
              initial_world) as [[pk|e] w1] eqn:Hprep.
  2: { exfalso.
       assert (He : fst (JitCache_get_prepared_kernel Demo.toolchain self []
                           kwargs initial_world) = Raise e)
         by now rewrite Hprep.
       vm_compute in He. discriminate He. }
  exists pk, w1. split; [reflexivity|].
  apply (static_warmup_invokes_fresh_kernel Demo.toolchain self 0%nat kwargs
           "1" pk initial_world w1).
  - reflexivity.
  - reflexivity.
  - reflexivity.
  - cbn. intros [H|[]]. discriminate H.
  - reflexivity.
  - constructor; [|constructor]. exists (VInt 1). split; reflexivity.
  - reflexivity.
  - exact Hprep.
Defined.

Lemma cache_changes_only_by_compiled_kernel_witness :
  let w' :=
    snd (JitCache_run Demo.toolchain (Demo.engine ["A"] None false) []
           (Demo.call_kwargs (VInt 1) (VInt 0)) initial_world) in
  dict_keys (kernel_cache w') = [] \/
  exists key, dict_keys (kernel_cache w') = [key].
Proof.
  intros w'.
  destruct (cache_changes_only_by_compiled_kernel Demo.toolchain
              (Demo.engine ["A"] None false) []
              (Demo.call_kwargs (VInt 1) (VInt 0)) initial_world)
    as [H|(pk & w0 & w1 & _ & H & _)]; fold w' in H; rewrite H.
  - left. reflexivity.
  - right. exists (get_key pk). reflexivity.
Defined.

